(** * cnHeat: a shallow embedding of the REST client of [cnHeat.py]

    The client is a Python class whose methods issue one HTTP request each
    (three for [create_radio]) through the [requests] library, wrap the
    library's exceptions into [RuntimeError], and return decoded JSON.

    - Python values that travel through the client (decoded JSON, request
      bodies, tokens) are the inductive [pyval].
    - The network is an oracle [Server]: a function from the history of
      requests sent so far to the outcome of the last one.  The general
      theorems quantify over it, so no behaviour of the remote service is
      assumed; scripted servers serve the concrete runs.
    - Methods are programs in a state-and-exception monad [M] over the
      client object, the oracle and the log of requests sent; a state
      change made before an exception is raised persists, as in Python. *)

From Stdlib Require Import ZArith String Ascii List Bool Lia DecimalString.
Import ListNotations.
Set Warnings "-register-all".
Local Open Scope string_scope.
Local Open Scope Z_scope.

(** ** Python values *)

Module Py.

(** JSON-shaped Python values.  A float is never computed with by the
    client; it is carried by the text Python prints for it ([repr]), which
    determines the float: [5.8] is [VFloat "5.8"]. Dictionaries keep their
    insertion order. Strings stand for ASCII text. *)
Inductive pyval : Type :=
| VNone
| VBool (b : bool)
| VInt (z : Z)
| VFloat (repr : string)
| VStr (s : string)
| VList (l : list pyval)
| VDict (d : list (string * pyval)).

(** Arguments documented as [float]: integer or float literals. *)
Inductive pynum : Type :=
| NInt (z : Z)
| NFloat (repr : string).

Definition num (n : pynum) : pyval :=
  match n with
  | NInt z => VInt z
  | NFloat r => VFloat r
  end.

(** Exceptions the client can meet.  [RequestException] stands for the whole
    class hierarchy under [requests.RequestException]; the string is
    [str(e)]. *)
Inductive req_exn : Type :=
| ConnectionError     (* raised by requests.get/post/patch/delete *)
| HTTPError           (* raised by Response.raise_for_status *)
| JSONDecodeError.    (* raised by Response.json (requests >= 2.27) *)

Inductive exn : Type :=
| RequestException (k : req_exn) (msg : string)
| RuntimeError (msg : string)
| KeyError (key : string)
| TypeError (msg : string)
| AttributeError (attr : string)
| UnboundLocalError (var : string).

Inductive result (A : Type) : Type :=
| Ok (a : A)
| Raise (e : exn).
Arguments Ok {A} a.
Arguments Raise {A} e.

Definition rbind {A B : Type} (r : result A) (k : A -> result B) : result B :=
  match r with
  | Ok a => k a
  | Raise e => Raise e
  end.

Declare Scope res_scope.
Delimit Scope res_scope with res.
Notation "x <- r ;; k" := (rbind r (fun x => k))
  (at level 61, r at next level, right associativity) : res_scope.

(** *** Text *)

Definition string_of_Z (z : Z) : string :=
  NilZero.string_of_int (Z.to_int z).

Fixpoint join (sep : string) (l : list string) : string :=
  match l with
  | [] => ""
  | [s] => s
  | s :: rest => s ++ sep ++ join sep rest
  end.

Fixpoint contains_char (c : ascii) (s : string) : bool :=
  match s with
  | EmptyString => false
  | String x rest => Ascii.eqb x c || contains_char c rest
  end.

Definition squote : ascii := "039"%char.
Definition dquote : ascii := "034"%char.
Definition backslash : ascii := "092"%char.

Definition hex_digit (n : nat) : ascii :=
  nth n ["0"; "1"; "2"; "3"; "4"; "5"; "6"; "7"; "8"; "9";
         "a"; "b"; "c"; "d"; "e"; "f"]%char "0"%char.

Definition escape_char (q c : ascii) : string :=
  let n := nat_of_ascii c in
  if Ascii.eqb c backslash then String backslash (String backslash "")
  else if Ascii.eqb c q then String backslash (String q "")
  else if Nat.eqb n 10 then String backslash "n"
  else if Nat.eqb n 13 then String backslash "r"
  else if Nat.eqb n 9 then String backslash "t"
  else if Nat.ltb n 32 || Nat.eqb n 127 then
    String backslash
      (String "x" (String (hex_digit (n / 16)) (String (hex_digit (n mod 16)) "")))
  else String c "".

Fixpoint escape (q : ascii) (s : string) : string :=
  match s with
  | EmptyString => ""
  | String c rest => escape_char q c ++ escape q rest
  end.

(** [repr] of a [str]: single quotes, unless the text holds a single quote
    and no double quote. *)
Definition repr_str (s : string) : string :=
  let q := if contains_char squote s && negb (contains_char dquote s)
           then dquote else squote in
  String q (escape q s ++ String q "").

Fixpoint py_repr (v : pyval) : string :=
  match v with
  | VNone => "None"
  | VBool true => "True"
  | VBool false => "False"
  | VInt z => string_of_Z z
  | VFloat r => r
  | VStr s => repr_str s
  | VList l => "[" ++ join ", " (map py_repr l) ++ "]"
  | VDict d =>
      "{" ++ join ", " (map (fun kv => let '(k, x) := kv in
                                        repr_str k ++ ": " ++ py_repr x) d) ++ "}"
  end.

(** [str(v)], which is also what an f-string field [{v}] renders. *)
Definition py_str (v : pyval) : string :=
  match v with
  | VStr s => s
  | _ => py_repr v
  end.

Definition upper_char (c : ascii) : ascii :=
  let n := nat_of_ascii c in
  if Nat.leb 97 n && Nat.leb n 122 then ascii_of_nat (n - 32) else c.

(** Text all of whose characters are ASCII (codes below 128). *)
Fixpoint ascii_text (s : string) : bool :=
  match s with
  | EmptyString => true
  | String c rest => Nat.ltb (nat_of_ascii c) 128 && ascii_text rest
  end.

(** [s.upper()] for ASCII text [s], where it maps a-z to A-Z and leaves the
    rest.  Python's [upper] is Unicode-aware; on text that is not
    [ascii_text] this function is not it, and a statement about an
    upper-cased text carries [ascii_text] as a hypothesis. *)
Fixpoint upper (s : string) : string :=
  match s with
  | EmptyString => EmptyString
  | String c rest => String (upper_char c) (upper rest)
  end.

(** [s.split(sep)] for a one-character separator; never empty. *)
Fixpoint split (sep : ascii) (s : string) : list string :=
  match s with
  | EmptyString => [""]
  | String c rest =>
      if Ascii.eqb c sep then "" :: split sep rest
      else match split sep rest with
           | h :: t => String c h :: t
           | [] => [String c ""]
           end
  end.

(** [l[0]] on the list a [split] returned. *)
Definition item0 (l : list string) : string := hd "" l.

(** *** Dictionaries and subscripts *)

Fixpoint assoc {A : Type} (k : string) (d : list (string * A)) : option A :=
  match d with
  | [] => None
  | (k', v) :: rest => if String.eqb k' k then Some v else assoc k rest
  end.

(** [v[key]] with a [str] key. *)
Definition getitem (v : pyval) (key : string) : result pyval :=
  match v with
  | VDict d =>
      match assoc key d with
      | Some x => Ok x
      | None => Raise (KeyError key)
      end
  | VList _ => Raise (TypeError "list indices must be integers or slices, not str")
  | VStr _ => Raise (TypeError "string indices must be integers, not 'str'")
  | _ => Raise (TypeError "object is not subscriptable")
  end.

(** [v.get(key, default)] *)
Definition dict_get (v : pyval) (key : string) (default : pyval) : result pyval :=
  match v with
  | VDict d =>
      match assoc key d with
      | Some x => Ok x
      | None => Ok default
      end
  | _ => Raise (AttributeError "get")
  end.

(** The items a [for] loop over [v] visits. *)
Fixpoint chars (s : string) : list pyval :=
  match s with
  | EmptyString => []
  | String c rest => VStr (String c "") :: chars rest
  end.

Definition iterate (v : pyval) : result (list pyval) :=
  match v with
  | VList l => Ok l
  | VDict d => Ok (map (fun kv => VStr (fst kv)) d)
  | VStr s => Ok (chars s)
  | _ => Raise (TypeError "object is not iterable")
  end.

(** [v == s] for a [str] [s]. *)
Definition eq_str (v : pyval) (s : string) : bool :=
  match v with
  | VStr t => String.eqb t s
  | _ => false
  end.

(** [v.split(sep)[0]] and [v.upper()] on a value that may not be a [str]. *)
Definition split_first (v : pyval) (sep : ascii) : result string :=
  match v with
  | VStr s => Ok (item0 (split sep s))
  | _ => Raise (AttributeError "split")
  end.

Definition upper_of (v : pyval) : result string :=
  match v with
  | VStr s => Ok (upper s)
  | _ => Raise (AttributeError "upper")
  end.

(** Reading a local variable that a loop may have left unbound. *)
Definition local (name : string) (v : option pyval) : result pyval :=
  match v with
  | Some x => Ok x
  | None => Raise (UnboundLocalError name)
  end.

End Py.
Export Py.

(** ** The [requests] library, as far as the client uses it *)

Module Http.

Inductive verb : Type := GET | POST | PATCH | DELETE.

(** One call [requests.<verb>(url, headers=..., params=..., data=..., json=...)];
    [None] is a keyword argument that was not passed. *)
Record request : Type := mkRequest {
  method : verb;
  url : string;
  req_headers : option (list (string * string));
  params : option (list (string * pyval));
  data : option (list (string * pyval));     (* form-encoded body *)
  json : option pyval                        (* JSON body *)
}.

(** The body of a response: JSON that decodes to a value, or text that
    [Response.json] rejects with the given message. *)
Inductive payload : Type :=
| Json (v : pyval)
| NotJson (err : string).

Record response : Type := mkResponse {
  status_code : Z;
  reason : string;
  resp_url : string;
  content : payload
}.

(** What a call does: raise a transport error ([str(e)] given) or return. *)
Inductive outcome : Type :=
| Fails (msg : string)
| Returns (r : response).

(** The remote service with everything between it and the client: given
    the requests sent so far, the last one being the current request, the
    outcome of the current request. *)
Definition Server : Type := list request -> outcome.

Definition is_client_error (s : Z) : bool := (400 <=? s) && (s <? 500).
Definition is_server_error (s : Z) : bool := (500 <=? s) && (s <? 600).
(** The statuses [raise_for_status] raises for. *)
Definition is_error_status (s : Z) : bool := is_client_error s || is_server_error s.
Definition is_2xx (s : Z) : bool := (200 <=? s) && (s <? 300).

(** [str(e)] of the [HTTPError] that [raise_for_status] builds. *)
Definition http_error_msg (kind : string) (r : response) : string :=
  string_of_Z (status_code r) ++ " " ++ kind ++ ": " ++ reason r
    ++ " for url: " ++ resp_url r.

End Http.
Export Http.

(** ** The client object and the monad of its methods *)

(** The attributes of a [cnHeat] instance; [None] is an attribute that has
    not been assigned yet. *)
Record cnHeat : Type := mkClient {
  client_id : option string;
  client_secret : option string;
  base_endpoint : option string;
  token : option pyval;
  headers : option (list (string * string));
  sites : option pyval;
  predictions : option pyval;
  users : option pyval
}.

Definition new_object : cnHeat :=
  mkClient None None None None None None None None.

Record state : Type := mkState {
  self : cnHeat;
  net : Server;
  log : list request       (* requests sent so far, oldest first *)
}.

Definition M (A : Type) : Type := state -> result A * state.

Definition ret {A : Type} (a : A) : M A := fun st => (Ok a, st).

Definition raise {A : Type} (e : exn) : M A := fun st => (Raise e, st).

Definition bind {A B : Type} (m : M A) (k : A -> M B) : M B :=
  fun st =>
    match m st with
    | (Ok a, st') => k a st'
    | (Raise e, st') => (Raise e, st')
    end.

Definition lift {A : Type} (r : result A) : M A := fun st => (r, st).

(** [try: body  except requests.RequestException as e: handler(str(e))];
    any other exception passes through. *)
Definition try_except {A : Type} (body : M A) (handler : string -> M A) : M A :=
  fun st =>
    match body st with
    | (Raise (RequestException _ msg), st') => handler msg st'
    | other => other
    end.

Declare Scope py_scope.
Delimit Scope py_scope with py.
Notation "x <- m ;; k" := (bind m (fun x => k))
  (at level 61, m at next level, right associativity) : py_scope.
Notation "m ;; k" := (bind m (fun _ => k))
  (at level 61, right associativity) : py_scope.
Notation "'try' body 'except' e => handler" := (try_except body (fun e => handler))
  (at level 62, body at level 61, e name, handler at level 61) : py_scope.
Local Open Scope py_scope.

(** Reading and assigning [self.<attribute>]. *)
Definition attr {A : Type} (name : string) (field : cnHeat -> option A) : M A :=
  fun st =>
    match field (self st) with
    | Some a => (Ok a, st)
    | None => (Raise (AttributeError name), st)
    end.

Definition assign (update : cnHeat -> cnHeat) : M unit :=
  fun st => (Ok tt, mkState (update (self st)) (net st) (log st)).

Definition set_client_id (v : string) (c : cnHeat) : cnHeat :=
  mkClient (Some v) (client_secret c) (base_endpoint c) (token c) (headers c)
           (sites c) (predictions c) (users c).
Definition set_client_secret (v : string) (c : cnHeat) : cnHeat :=
  mkClient (client_id c) (Some v) (base_endpoint c) (token c) (headers c)
           (sites c) (predictions c) (users c).
Definition set_base_endpoint (v : string) (c : cnHeat) : cnHeat :=
  mkClient (client_id c) (client_secret c) (Some v) (token c) (headers c)
           (sites c) (predictions c) (users c).
Definition set_token (v : pyval) (c : cnHeat) : cnHeat :=
  mkClient (client_id c) (client_secret c) (base_endpoint c) (Some v) (headers c)
           (sites c) (predictions c) (users c).
Definition set_headers (v : list (string * string)) (c : cnHeat) : cnHeat :=
  mkClient (client_id c) (client_secret c) (base_endpoint c) (token c) (Some v)
           (sites c) (predictions c) (users c).
Definition set_sites (v : pyval) (c : cnHeat) : cnHeat :=
  mkClient (client_id c) (client_secret c) (base_endpoint c) (token c) (headers c)
           (Some v) (predictions c) (users c).
Definition set_predictions (v : pyval) (c : cnHeat) : cnHeat :=
  mkClient (client_id c) (client_secret c) (base_endpoint c) (token c) (headers c)
           (sites c) (Some v) (users c).
Definition set_users (v : pyval) (c : cnHeat) : cnHeat :=
  mkClient (client_id c) (client_secret c) (base_endpoint c) (token c) (headers c)
           (sites c) (predictions c) (Some v).

(** Sending a request: it is logged, and the server decides the outcome. *)
Definition send (r : request) : M response :=
  fun st =>
    let sent := (log st ++ [r])%list in
    let st' := mkState (self st) (net st) sent in
    match net st sent with
    | Fails msg => (Raise (RequestException ConnectionError msg), st')
    | Returns resp => (Ok resp, st')
    end.

Definition requests_get (u : string) (h : option (list (string * string)))
    (p : option (list (string * pyval))) : M response :=
  send (mkRequest GET u h p None None).
Definition requests_post (u : string) (h : option (list (string * string)))
    (d : option (list (string * pyval))) (j : option pyval) : M response :=
  send (mkRequest POST u h None d j).
Definition requests_patch (u : string) (h : option (list (string * string)))
    (j : option pyval) : M response :=
  send (mkRequest PATCH u h None None j).
Definition requests_delete (u : string) (h : option (list (string * string)))
    (j : option pyval) : M response :=
  send (mkRequest DELETE u h None None j).

(** [response.raise_for_status()] *)
Definition raise_for_status (r : response) : M unit :=
  if is_client_error (status_code r) then
    raise (RequestException HTTPError (http_error_msg "Client Error" r))
  else if is_server_error (status_code r) then
    raise (RequestException HTTPError (http_error_msg "Server Error" r))
  else ret tt.

(** [response.json()] *)
Definition response_json (r : response) : M pyval :=
  match content r with
  | Json v => ret v
  | NotJson err => raise (RequestException JSONDecodeError err)
  end.


(** ** The class [cnHeat] *)

(** [_authenticate]: the credentials go out form-encoded ([data=]), with no
    headers. *)
Definition _authenticate : M pyval :=
  base <- attr "base_endpoint" base_endpoint ;;
  let auth_url := base ++ "oauth/token" in
  cid <- attr "client_id" client_id ;;
  sec <- attr "client_secret" client_secret ;;
  let data := [("client_id", VStr cid); ("client_secret", VStr sec)] in
  try (response <- requests_post auth_url None (Some data) None ;;
       raise_for_status response ;;
       body <- response_json response ;;
       lift (dict_get body "access_token" VNone))
  except e => raise (RuntimeError ("Authentication failed: " ++ e)).

Definition get_credits : M pyval :=
  try (base <- attr "base_endpoint" base_endpoint ;;
       hdrs <- attr "headers" headers ;;
       response <- requests_get (base ++ "credits") (Some hdrs) None ;;
       raise_for_status response ;;
       credit_data <- response_json response ;;
       ret credit_data)
  except e => raise (RuntimeError ("Failed to fetch credits: " ++ e)).

Definition get_antennas (freq : pynum) : M pyval :=
  try (base <- attr "base_endpoint" base_endpoint ;;
       hdrs <- attr "headers" headers ;;
       response <- requests_get (base ++ "antennas") (Some hdrs)
                     (Some [("frequency", num freq)]) ;;
       raise_for_status response ;;
       antenna_data <- response_json response ;;
       antennas <- lift (dict_get antenna_data "objects" (VList [])) ;;
       ret antennas)
  except e => raise (RuntimeError ("Failed to fetch antennas: " ++ e)).

(** The handler formats [self.sites[site_id]['name']] into the message. *)
Definition get_site_radios (site_id : string) : M pyval :=
  try (base <- attr "base_endpoint" base_endpoint ;;
       hdrs <- attr "headers" headers ;;
       response <- requests_get (base ++ "radios/" ++ site_id) (Some hdrs) None ;;
       raise_for_status response ;;
       radio_data <- response_json response ;;
       radios <- lift (dict_get radio_data "objects" (VList [])) ;;
       ret radios)
  except e =>
    (snapshot <- attr "sites" sites ;;
     site <- lift (getitem snapshot site_id) ;;
     name <- lift (getitem site "name") ;;
     raise (RuntimeError ("Failed to fetch " ++ py_str name ++ " radios: " ++ e))).

Definition get_radio (radio_id : string) : M pyval :=
  try (base <- attr "base_endpoint" base_endpoint ;;
       hdrs <- attr "headers" headers ;;
       response <- requests_get (base ++ "radio/" ++ radio_id) (Some hdrs) None ;;
       raise_for_status response ;;
       response_json response)
  except e => raise (RuntimeError ("Failed to fetch radio: " ++ e)).

Definition delete_radio (radio_id : string) : M pyval :=
  try (base <- attr "base_endpoint" base_endpoint ;;
       hdrs <- attr "headers" headers ;;
       response <- requests_delete (base ++ "radio/" ++ radio_id) (Some hdrs) None ;;
       raise_for_status response ;;
       response_json response)
  except e => raise (RuntimeError ("Failed to delete radio: " ++ e)).

Definition get_sites : M pyval :=
  try (base <- attr "base_endpoint" base_endpoint ;;
       hdrs <- attr "headers" headers ;;
       response <- requests_get (base ++ "sites") (Some hdrs) None ;;
       raise_for_status response ;;
       site_data <- response_json response ;;
       fetched <- lift (dict_get site_data "objects" (VList [])) ;;
       ret fetched)
  except e => raise (RuntimeError ("Failed to fetch sites: " ++ e)).

(** The two [for] loops of [create_radio]:
    [for s in items: if s['id'] == wanted: name = s[field]; break].
    [Ok None] is the loop running off the end with the local unbound. *)
Fixpoint lookup_loop (items : list pyval) (wanted field : string)
  : result (option pyval) :=
  match items with
  | [] => Ok None
  | s :: rest =>
      match getitem s "id" with
      | Raise e => Raise e
      | Ok i =>
          if eq_str i wanted then
            match getitem s field with
            | Raise e => Raise e
            | Ok name => Ok (Some name)
            end
          else lookup_loop rest wanted field
      end
  end.

(** The dictionary both [create_radio] and [update_radio] send. *)
Definition radio_data (antennaId radioName : string) (azimuth folliageTuning freq
    aglHeightMeters arHeightMeters radiusMeters smGain tilt txClearanceMeters
    txPowerDbm : pynum) : pyval :=
  VDict [ ("antenna", VStr antennaId);
          ("name", VStr radioName);
          ("azimuth", num azimuth);
          ("foliage_tuning", num folliageTuning);
          ("frequency(ghz)", num freq);
          ("height(m)", num aglHeightMeters);
          ("height_rooftop(m)", num arHeightMeters);
          ("radius(m)", num radiusMeters);
          ("sm_gain(dbi)", num smGain);
          ("tilt", num tilt);
          ("txclearance(m)", num txClearanceMeters);
          ("txpower(dbm)", num txPowerDbm) ].

(** Lines 168-176 of [create_radio]: the two loops, then the f-string, whose
    fields are evaluated left to right ([antenna_name] before [site_name]).
    A loop that ran off the end leaves its local unbound, and reading it
    raises [UnboundLocalError]. *)
Definition default_radio_name (fetched antennas : pyval) (site_id : string)
    (freq : pynum) (antennaId : string) (azimuth : pynum) : result string :=
  (site_items <- iterate fetched ;;
   site_name <- lookup_loop site_items site_id "name" ;;
   antenna_items <- iterate antennas ;;
   antenna_name <- lookup_loop antenna_items antennaId "antenna" ;;
   a <- local "antenna_name" antenna_name ;;
   prefix <- split_first a "-" ;;
   let az := py_str (num azimuth) in
   let ghz := item0 (split "." (py_str (num freq))) in
   s <- local "site_name" site_name ;;
   site_upper <- upper_of s ;;
   Ok ("AP-" ++ prefix ++ "-" ++ az ++ "-" ++ ghz ++ " GHZ." ++ site_upper))%res.

Definition create_radio (site_id : string) (freq : pynum) (antennaId : string)
    (azimuth aglHeightMeters : pynum) (radioName : option string)
    (folliageTuning arHeightMeters radiusMeters smGain tilt txClearanceMeters
     txPowerDbm : pynum) : M pyval :=
  try (antennas <- get_antennas freq ;;
       fetched <- get_sites ;;
       radioName <-
         match radioName with
         | Some given => ret given
         | None => lift (default_radio_name fetched antennas site_id freq
                           antennaId azimuth)
         end ;;
       let data := radio_data antennaId radioName azimuth folliageTuning freq
                     aglHeightMeters arHeightMeters radiusMeters smGain tilt
                     txClearanceMeters txPowerDbm in
       base <- attr "base_endpoint" base_endpoint ;;
       hdrs <- attr "headers" headers ;;
       response <- requests_post (base ++ "radio/" ++ site_id) (Some hdrs) None
                     (Some data) ;;
       raise_for_status response ;;
       response_json response)
  except e => raise (RuntimeError ("Failed to create radio: " ++ e)).

Definition update_radio (radio_id : string) (freq : pynum) (antennaId : string)
    (azimuth aglHeightMeters : pynum) (radioName : option string)
    (folliageTuning arHeightMeters radiusMeters smGain tilt txClearanceMeters
     txPowerDbm : pynum) : M pyval :=
  try (let radioName := match radioName with
                        | Some given => given
                        | None => "No Name"
                        end in
       let data := radio_data antennaId radioName azimuth folliageTuning freq
                     aglHeightMeters arHeightMeters radiusMeters smGain tilt
                     txClearanceMeters txPowerDbm in
       base <- attr "base_endpoint" base_endpoint ;;
       hdrs <- attr "headers" headers ;;
       response <- requests_patch (base ++ "radio/" ++ radio_id) (Some hdrs)
                     (Some data) ;;
       raise_for_status response ;;
       response_json response)
  except e => raise (RuntimeError ("Failed to update radio: " ++ e)).

(** The default values of the keyword parameters in the two signatures. *)
Definition default_aglHeightMeters : pynum := NInt 20.
Definition default_radioName : option string := None.
Definition default_folliageTuning : pynum := NInt (-1).
Definition default_arHeightMeters : pynum := NInt 0.
Definition default_radiusMeters : pynum := NInt 12875.
Definition default_smGain : pynum := NFloat "18.5".
Definition default_tilt : pynum := NInt (-2).
Definition default_txClearanceMeters : pynum := NInt 30.
Definition default_txPowerDbm : pynum := NFloat "27.2".

(** [create_radio(site_id, freq, antennaId, azimuth)] and
    [update_radio(radio_id, freq, antennaId, azimuth)]: required arguments
    only. *)
Definition create_radio_required (site_id : string) (freq : pynum)
    (antennaId : string) (azimuth : pynum) : M pyval :=
  create_radio site_id freq antennaId azimuth default_aglHeightMeters
    default_radioName default_folliageTuning default_arHeightMeters
    default_radiusMeters default_smGain default_tilt default_txClearanceMeters
    default_txPowerDbm.

Definition update_radio_required (radio_id : string) (freq : pynum)
    (antennaId : string) (azimuth : pynum) : M pyval :=
  update_radio radio_id freq antennaId azimuth default_aglHeightMeters
    default_radioName default_folliageTuning default_arHeightMeters
    default_radiusMeters default_smGain default_tilt default_txClearanceMeters
    default_txPowerDbm.

Definition rename_site (site_id name : string) : M pyval :=
  try (let data := VDict [("name", VStr name)] in
       base <- attr "base_endpoint" base_endpoint ;;
       hdrs <- attr "headers" headers ;;
       response <- requests_patch (base ++ "site/" ++ site_id) (Some hdrs)
                     (Some data) ;;
       raise_for_status response ;;
       response_json response)
  except e => raise (RuntimeError ("Failed to update site: " ++ e)).

Definition create_site (name : string) (lat lon : pynum) (credit_id : string)
  : M pyval :=
  try (let data := VDict [("name", VStr name); ("lat", num lat); ("lon", num lon);
                          ("credits", VStr credit_id)] in
       base <- attr "base_endpoint" base_endpoint ;;
       hdrs <- attr "headers" headers ;;
       response <- requests_post (base ++ "sites") (Some hdrs) None (Some data) ;;
       raise_for_status response ;;
       response_json response)
  except e => raise (RuntimeError ("Failed to create site: " ++ e)).

Definition get_predictions : M pyval :=
  try (base <- attr "base_endpoint" base_endpoint ;;
       hdrs <- attr "headers" headers ;;
       response <- requests_get (base ++ "predictions") (Some hdrs) None ;;
       raise_for_status response ;;
       body <- response_json response ;;
       fetched <- lift (dict_get body "objects" (VList [])) ;;
       ret fetched)
  except e => raise (RuntimeError ("Failed to fetch predicitions: " ++ e)).

Definition create_prediction (prediction_name : string)
    (radio_id_list : list string) : M pyval :=
  let data := VDict [("name", VStr prediction_name);
                     ("radio_list", VList (map VStr radio_id_list))] in
  try (base <- attr "base_endpoint" base_endpoint ;;
       hdrs <- attr "headers" headers ;;
       response <- requests_post (base ++ "predictions") (Some hdrs) None
                     (Some data) ;;
       raise_for_status response ;;
       response_json response)
  except e => raise (RuntimeError ("Failed to create predicition: " ++ e)).

Definition get_predictions_statuses : M pyval :=
  try (base <- attr "base_endpoint" base_endpoint ;;
       hdrs <- attr "headers" headers ;;
       response <- requests_get (base ++ "predictions/jobmanagement") (Some hdrs)
                     None ;;
       raise_for_status response ;;
       body <- response_json response ;;
       predictions_statuses <- lift (dict_get body "objects" (VList [])) ;;
       ret predictions_statuses)
  except e => raise (RuntimeError ("Failed to fetch predicition statuses: " ++ e)).

Definition rename_prediction (prediction_id new_name : string) : M pyval :=
  let data := VDict [("name", VStr new_name)] in
  try (base <- attr "base_endpoint" base_endpoint ;;
       hdrs <- attr "headers" headers ;;
       response <- requests_patch
                     (base ++ "prediction/" ++ prediction_id ++ "/rename")
                     (Some hdrs) (Some data) ;;
       raise_for_status response ;;
       response_json response)
  except e => raise (RuntimeError ("Failed to rename predicition: " ++ e)).

Definition delete_prediction (prediction_id : string) : M pyval :=
  try (base <- attr "base_endpoint" base_endpoint ;;
       hdrs <- attr "headers" headers ;;
       response <- requests_delete (base ++ "prediction/" ++ prediction_id)
                     (Some hdrs) None ;;
       raise_for_status response ;;
       response_json response)
  except e => raise (RuntimeError ("Failed to delete predicition: " ++ e)).

Definition get_users : M pyval :=
  try (base <- attr "base_endpoint" base_endpoint ;;
       hdrs <- attr "headers" headers ;;
       response <- requests_get (base ++ "users") (Some hdrs) None ;;
       raise_for_status response ;;
       body <- response_json response ;;
       lift (dict_get body "objects" (VList [])))
  except e => raise (RuntimeError ("Failed to get users: " ++ e)).

Definition add_user (email role : string) : M pyval :=
  let data := VDict [("email", VStr email); ("permission", VStr role)] in
  try (base <- attr "base_endpoint" base_endpoint ;;
       hdrs <- attr "headers" headers ;;
       response <- requests_post (base ++ "users") (Some hdrs) None (Some data) ;;
       raise_for_status response ;;
       response_json response)
  except e => raise (RuntimeError ("Failed to add user: " ++ e)).

Definition delete_user (email : string) : M pyval :=
  let data := VDict [("email", VStr email)] in
  try (base <- attr "base_endpoint" base_endpoint ;;
       hdrs <- attr "headers" headers ;;
       response <- requests_delete (base ++ "user") (Some hdrs) (Some data) ;;
       raise_for_status response ;;
       response_json response)
  except e => raise (RuntimeError ("Failed to delete user: " ++ e)).

Definition get_subscriptions : M pyval :=
  try (base <- attr "base_endpoint" base_endpoint ;;
       hdrs <- attr "headers" headers ;;
       response <- requests_get (base ++ "subscriptions") (Some hdrs) None ;;
       raise_for_status response ;;
       body <- response_json response ;;
       lift (dict_get body "objects" (VList [])))
  except e => raise (RuntimeError ("Failed to get subscriptions: " ++ e)).

Definition renew_subscriptions (site_id : string) : M pyval :=
  try (base <- attr "base_endpoint" base_endpoint ;;
       hdrs <- attr "headers" headers ;;
       response <- requests_patch (base ++ "subscription/" ++ site_id ++ "/renew")
                     (Some hdrs) None ;;
       raise_for_status response ;;
       response_json response)
  except e => raise (RuntimeError ("Failed to renew subscription: " ++ e)).

Definition terminate_subscription (site_id : string) : M pyval :=
  try (base <- attr "base_endpoint" base_endpoint ;;
       hdrs <- attr "headers" headers ;;
       response <- requests_patch
                     (base ++ "subscription/" ++ site_id ++ "/terminate")
                     (Some hdrs) None ;;
       raise_for_status response ;;
       response_json response)
  except e => raise (RuntimeError ("Failed to renew subscription: " ++ e)).

Definition the_base_endpoint : string :=
  "https://internal.cnheat.cambiumnetworks.com/api/v1/".

Definition __init__ (cid sec : string) : M unit :=
  assign (set_client_id cid) ;;
  assign (set_client_secret sec) ;;
  assign (set_base_endpoint the_base_endpoint) ;;
  tok <- _authenticate ;;
  assign (set_token tok) ;;
  tok <- attr "token" token ;;
  assign (set_headers [("Authorization", "Bearer " ++ py_str tok)]) ;;
  fetched <- get_sites ;;
  assign (set_sites fetched) ;;
  fetched <- get_predictions ;;
  assign (set_predictions fetched) ;;
  fetched <- get_users ;;
  assign (set_users fetched).

(** [cnHeat(client_id, client_secret)] against a server, nothing sent yet. *)
Definition construct (cid sec : string) (server : Server) : result unit * state :=
  __init__ cid sec (mkState new_object server []).

(** ** Calls on a client *)

(** One invocation of a public method, with its arguments. *)
Inductive call : Type :=
| GetCredits
| GetAntennas (freq : pynum)
| GetSiteRadios (site_id : string)
| GetRadio (radio_id : string)
| DeleteRadio (radio_id : string)
| CreateRadio (site_id : string) (freq : pynum) (antennaId : string)
    (azimuth aglHeightMeters : pynum) (radioName : option string)
    (folliageTuning arHeightMeters radiusMeters smGain tilt txClearanceMeters
     txPowerDbm : pynum)
| UpdateRadio (radio_id : string) (freq : pynum) (antennaId : string)
    (azimuth aglHeightMeters : pynum) (radioName : option string)
    (folliageTuning arHeightMeters radiusMeters smGain tilt txClearanceMeters
     txPowerDbm : pynum)
| GetSites
| RenameSite (site_id name : string)
| CreateSite (name : string) (lat lon : pynum) (credit_id : string)
| GetPredictions
| CreatePrediction (prediction_name : string) (radio_id_list : list string)
| GetPredictionsStatuses
| RenamePrediction (prediction_id new_name : string)
| DeletePrediction (prediction_id : string)
| GetUsers
| AddUser (email role : string)
| DeleteUser (email : string)
| GetSubscriptions
| RenewSubscriptions (site_id : string)
| TerminateSubscription (site_id : string).

Definition invoke (c : call) : M pyval :=
  match c with
  | GetCredits => get_credits
  | GetAntennas freq => get_antennas freq
  | GetSiteRadios site_id => get_site_radios site_id
  | GetRadio radio_id => get_radio radio_id
  | DeleteRadio radio_id => delete_radio radio_id
  | CreateRadio site_id freq antennaId azimuth agl radioName fol ar radius gain
      tilt clearance power =>
      create_radio site_id freq antennaId azimuth agl radioName fol ar radius
        gain tilt clearance power
  | UpdateRadio radio_id freq antennaId azimuth agl radioName fol ar radius gain
      tilt clearance power =>
      update_radio radio_id freq antennaId azimuth agl radioName fol ar radius
        gain tilt clearance power
  | GetSites => get_sites
  | RenameSite site_id name => rename_site site_id name
  | CreateSite name lat lon credit_id => create_site name lat lon credit_id
  | GetPredictions => get_predictions
  | CreatePrediction name ids => create_prediction name ids
  | GetPredictionsStatuses => get_predictions_statuses
  | RenamePrediction prediction_id new_name =>
      rename_prediction prediction_id new_name
  | DeletePrediction prediction_id => delete_prediction prediction_id
  | GetUsers => get_users
  | AddUser email role => add_user email role
  | DeleteUser email => delete_user email
  | GetSubscriptions => get_subscriptions
  | RenewSubscriptions site_id => renew_subscriptions site_id
  | TerminateSubscription site_id => terminate_subscription site_id
  end.

(** The methods that narrow the decoded response to its ['objects']. *)
Definition list_returning (c : call) : bool :=
  match c with
  | GetAntennas _ | GetSiteRadios _ | GetSites | GetPredictions
  | GetPredictionsStatuses | GetUsers | GetSubscriptions => true
  | _ => false
  end.

(** A caller making calls one after the other, going on after an
    exception. *)
Definition run (calls : list call) (st : state) : state :=
  fold_left (fun s c => snd (invoke c s)) calls st.

(** The server's answer to the request sent last. *)
Definition answered (st : state) : outcome := net st (log st).

(** ** Vocabulary of the statements *)

(** What [send; raise_for_status; json] make of an outcome. *)
Definition reply (o : outcome) : result pyval :=
  match o with
  | Fails msg => Raise (RequestException ConnectionError msg)
  | Returns r =>
      if is_client_error (status_code r) then
        Raise (RequestException HTTPError (http_error_msg "Client Error" r))
      else if is_server_error (status_code r) then
        Raise (RequestException HTTPError (http_error_msg "Server Error" r))
      else match content r with
           | Json v => Ok v
           | NotJson err => Raise (RequestException JSONDecodeError err)
           end
  end.

(** A successful response carrying a JSON object. *)
Definition answers_object (o : outcome) (d : list (string * pyval)) : Prop :=
  exists r, o = Returns r /\ is_error_status (status_code r) = false
            /\ content r = Json (VDict d).

(** A successful response whose ['objects'] is the list [items]. *)
Definition answers_list (o : outcome) (items : list pyval) : Prop :=
  exists d, answers_object o d /\ assoc "objects" d = Some (VList items).

(** The state after [r] was sent. *)
Definition sent (st : state) (r : list request) : state :=
  mkState (self st) (net st) (log st ++ r).

Definition bearer (tok : pyval) : list (string * string) :=
  [("Authorization", "Bearer " ++ py_str tok)].

(** A client object whose request attributes are assigned. *)
Definition ready (b : string) (h : list (string * string)) (me : cnHeat) : Prop :=
  base_endpoint me = Some b /\ headers me = Some h.

(** A request that carries the headers [h] and no form-encoded body: its
    body, if it has one, is JSON. *)
Definition greets (h : list (string * string)) (r : request) : Prop :=
  req_headers r = Some h /\ data r = None.

(** [m], started on an object satisfying [pre], leaves the object and the
    server as they were and sends only requests satisfying [allowed]. *)
Definition sends (pre : cnHeat -> Prop) (allowed : request -> Prop) {A : Type}
    (m : M A) : Prop :=
  forall st, pre (self st) ->
    self (snd (m st)) = self st /\ net (snd (m st)) = net st /\
    exists new, log (snd (m st)) = (log st ++ new)%list /\ Forall allowed new.

Definition anything {A : Type} (x : A) : Prop := True.

Definition auth_request (cid sec : string) : request :=
  mkRequest POST (the_base_endpoint ++ "oauth/token") None None
    (Some [("client_id", VStr cid); ("client_secret", VStr sec)]) None.

Definition get_request (b path : string) (h : list (string * string)) : request :=
  mkRequest GET (b ++ path) (Some h) None None None.

Definition antennas_request (b : string) (h : list (string * string))
    (freq : pynum) : request :=
  mkRequest GET (b ++ "antennas") (Some h) (Some [("frequency", num freq)])
    None None.

Definition radio_post (b : string) (h : list (string * string))
    (site_id : string) (body : pyval) : request :=
  mkRequest POST (b ++ "radio/" ++ site_id) (Some h) None None (Some body).

Definition radio_patch (b : string) (h : list (string * string))
    (radio_id : string) (body : pyval) : request :=
  mkRequest PATCH (b ++ "radio/" ++ radio_id) (Some h) None None (Some body).

(** *** The methods in table form

    Every method but [create_radio] sends one request, decodes the answer,
    and turns a [RequestException] into an error of its own. The tables
    below list, per call, the request, the part of the answer returned and
    the message of the handler; [invoke_single] proves them equal to the
    methods above. *)

Definition request_of (b : string) (h : list (string * string)) (c : call)
  : option request :=
  match c with
  | GetCredits => Some (get_request b "credits" h)
  | GetAntennas freq => Some (antennas_request b h freq)
  | GetSiteRadios site_id => Some (get_request b ("radios/" ++ site_id) h)
  | GetRadio radio_id => Some (get_request b ("radio/" ++ radio_id) h)
  | DeleteRadio radio_id =>
      Some (mkRequest DELETE (b ++ "radio/" ++ radio_id) (Some h) None None None)
  | CreateRadio _ _ _ _ _ _ _ _ _ _ _ _ _ => None
  | UpdateRadio radio_id freq antennaId azimuth agl radioName fol ar radius gain
      tilt clearance power =>
      Some (radio_patch b h radio_id
              (radio_data antennaId
                 (match radioName with Some given => given | None => "No Name" end)
                 azimuth fol freq agl ar radius gain tilt clearance power))
  | GetSites => Some (get_request b "sites" h)
  | RenameSite site_id name =>
      Some (mkRequest PATCH (b ++ "site/" ++ site_id) (Some h) None None
              (Some (VDict [("name", VStr name)])))
  | CreateSite name lat lon credit_id =>
      Some (mkRequest POST (b ++ "sites") (Some h) None None
              (Some (VDict [("name", VStr name); ("lat", num lat);
                            ("lon", num lon); ("credits", VStr credit_id)])))
  | GetPredictions => Some (get_request b "predictions" h)
  | CreatePrediction name ids =>
      Some (mkRequest POST (b ++ "predictions") (Some h) None None
              (Some (VDict [("name", VStr name);
                            ("radio_list", VList (map VStr ids))])))
  | GetPredictionsStatuses => Some (get_request b "predictions/jobmanagement" h)
  | RenamePrediction prediction_id new_name =>
      Some (mkRequest PATCH (b ++ "prediction/" ++ prediction_id ++ "/rename")
              (Some h) None None (Some (VDict [("name", VStr new_name)])))
  | DeletePrediction prediction_id =>
      Some (mkRequest DELETE (b ++ "prediction/" ++ prediction_id) (Some h)
              None None None)
  | GetUsers => Some (get_request b "users" h)
  | AddUser email role =>
      Some (mkRequest POST (b ++ "users") (Some h) None None
              (Some (VDict [("email", VStr email); ("permission", VStr role)])))
  | DeleteUser email =>
      Some (mkRequest DELETE (b ++ "user") (Some h) None None
              (Some (VDict [("email", VStr email)])))
  | GetSubscriptions => Some (get_request b "subscriptions" h)
  | RenewSubscriptions site_id =>
      Some (mkRequest PATCH (b ++ "subscription/" ++ site_id ++ "/renew")
              (Some h) None None None)
  | TerminateSubscription site_id =>
      Some (mkRequest PATCH (b ++ "subscription/" ++ site_id ++ "/terminate")
              (Some h) None None None)
  end.

(** The literal text before [{e}] in the handler's message. *)
Definition error_prefix (c : call) : string :=
  match c with
  | GetCredits => "Failed to fetch credits: "
  | GetAntennas _ => "Failed to fetch antennas: "
  | GetSiteRadios _ => "Failed to fetch "
  | GetRadio _ => "Failed to fetch radio: "
  | DeleteRadio _ => "Failed to delete radio: "
  | CreateRadio _ _ _ _ _ _ _ _ _ _ _ _ _ => "Failed to create radio: "
  | UpdateRadio _ _ _ _ _ _ _ _ _ _ _ _ _ => "Failed to update radio: "
  | GetSites => "Failed to fetch sites: "
  | RenameSite _ _ => "Failed to update site: "
  | CreateSite _ _ _ _ => "Failed to create site: "
  | GetPredictions => "Failed to fetch predicitions: "
  | CreatePrediction _ _ => "Failed to create predicition: "
  | GetPredictionsStatuses => "Failed to fetch predicition statuses: "
  | RenamePrediction _ _ => "Failed to rename predicition: "
  | DeletePrediction _ => "Failed to delete predicition: "
  | GetUsers => "Failed to get users: "
  | AddUser _ _ => "Failed to add user: "
  | DeleteUser _ => "Failed to delete user: "
  | GetSubscriptions => "Failed to get subscriptions: "
  | RenewSubscriptions _ => "Failed to renew subscription: "
  | TerminateSubscription _ => "Failed to renew subscription: "
  end.

(** What the handler of a call does with [str(e)]. *)
Definition on_error (c : call) (me : cnHeat) (msg : string) : result pyval :=
  match c with
  | GetSiteRadios site_id =>
      match sites me with
      | None => Raise (AttributeError "sites")
      | Some snapshot =>
          (site <- getitem snapshot site_id ;;
           name <- getitem site "name" ;;
           Raise (RuntimeError (error_prefix c ++ py_str name ++ " radios: " ++ msg)))%res
      end
  | _ => Raise (RuntimeError (error_prefix c ++ msg))
  end.

(** The part of the decoded answer a call returns. *)
Definition narrow (c : call) (body : pyval) : result pyval :=
  if list_returning c then dict_get body "objects" (VList []) else Ok body.

(** The result of the body [send; raise_for_status; json; narrow] under a
    [try] whose handler is [handler]. *)
Definition wrapped (handler : string -> result pyval)
    (narrowed : pyval -> result pyval) (o : outcome) : result pyval :=
  match reply o with
  | Ok body => narrowed body
  | Raise (RequestException _ msg) => handler msg
  | Raise e => Raise e
  end.

(** The handler of a method whose message is [prefix ++ str(e)]. *)
Definition runtime_error (prefix msg : string) : result pyval :=
  Raise (RuntimeError (prefix ++ msg)).

(** The name [create_radio] sends: the one given, or the default one. *)
Definition chosen_name (radioName : option string) (fetched antennas : pyval)
    (site_id : string) (freq : pynum) (antennaId : string) (azimuth : pynum)
  : result string :=
  match radioName with
  | Some given => Ok given
  | None => default_radio_name fetched antennas site_id freq antennaId azimuth
  end.

(** What a list-fetching method returns on an outcome that decodes. *)
Definition objects_of (o : outcome) : result pyval :=
  (body <- reply o ;; dict_get body "objects" (VList []))%res.

(** What [_authenticate] returns on an outcome that decodes. *)
Definition token_of (o : outcome) : result pyval :=
  (body <- reply o ;; dict_get body "access_token" VNone)%res.

(** The object [__init__] has built when it authenticates. *)
Definition unauthenticated (cid sec : string) : cnHeat :=
  set_base_endpoint the_base_endpoint
    (set_client_secret sec (set_client_id cid new_object)).

Definition authenticated (cid sec : string) (tok : pyval) : cnHeat :=
  set_headers (bearer tok) (set_token tok (unauthenticated cid sec)).

Definition is_request_exception (e : exn) : bool :=
  match e with
  | RequestException _ _ => true
  | _ => false
  end.

(** The text of [s] before the first [c]; all of [s] when it has none. *)
Fixpoint up_to_first (c : ascii) (s : string) : string :=
  match s with
  | EmptyString => EmptyString
  | String x rest => if Ascii.eqb x c then EmptyString
                     else String x (up_to_first c rest)
  end.

(** The default name as the specification words it. *)
Definition default_name (antenna_name : string) (azimuth freq : pynum)
    (site_name : string) : string :=
  "AP-" ++ up_to_first "-" antenna_name ++ "-" ++ py_str (num azimuth) ++ "-"
    ++ up_to_first "." (py_str (num freq)) ++ " GHZ." ++ upper site_name.

(** The body of the specification: the twelve documented fields, the eight
    tunable ones at their documented defaults. *)
Definition documented_body (antennaId name : string) (azimuth freq : pynum)
  : pyval :=
  VDict [ ("antenna", VStr antennaId);
          ("name", VStr name);
          ("azimuth", num azimuth);
          ("foliage_tuning", VInt (-1));
          ("frequency(ghz)", num freq);
          ("height(m)", VInt 20);
          ("height_rooftop(m)", VInt 0);
          ("radius(m)", VInt 12875);
          ("sm_gain(dbi)", VFloat "18.5");
          ("tilt", VInt (-2));
          ("txclearance(m)", VInt 30);
          ("txpower(dbm)", VFloat "27.2") ].

(** [name] is the [field] of the first entry of the list whose id is
    [wanted]; the entries before it carry other ids. *)
Inductive first_entry (wanted field : string) : list pyval -> pyval -> Prop :=
| entry_here d name rest :
    assoc "id" d = Some (VStr wanted) ->
    assoc field d = Some name ->
    first_entry wanted field (VDict d :: rest) name
| entry_later d i rest name :
    assoc "id" d = Some i ->
    eq_str i wanted = false ->
    first_entry wanted field rest name ->
    first_entry wanted field (VDict d :: rest) name.

(** An entry of a fetched list: an object with an id and a text [field]. *)
Definition entry (field : string) (v : pyval) : Prop :=
  exists d i n, v = VDict d /\ assoc "id" d = Some i
                /\ assoc field d = Some (VStr n).

(** No entry of the list has the id [wanted]. *)
Definition absent (wanted : string) (items : list pyval) : Prop :=
  Forall (fun v => forall i, getitem v "id" = Ok i -> eq_str i wanted = false)
         items.

(** ** Servers to run the client against *)

(** A server that answers the n-th request with the n-th outcome of a
    script, and refuses the connection once the script is over. *)
Definition scripted (script : list outcome) : Server :=
  fun requests => nth (length requests - 1) script (Fails "Connection refused").

Definition ok_json (v : pyval) : outcome :=
  Returns (mkResponse 200 "OK" "https://internal.cnheat.cambiumnetworks.com/api/v1/" (Json v)).

Definition not_found (u : string) : outcome :=
  Returns (mkResponse 404 "Not Found" u (Json (VDict [("message", VStr "not found")]))).

Definition objects (items : list pyval) : outcome :=
  ok_json (VDict [("objects", VList items)]).

Definition token_reply : outcome := ok_json (VDict [("access_token", VStr "t0k3n")]).

Definition denver : pyval := VDict [("id", VStr "s1"); ("name", VStr "denver")].
Definition hpa90 : pyval := VDict [("id", VStr "a7"); ("antenna", VStr "HPA-90")].

(** A client object as construction against [token_reply] and three lists
    leaves it. *)
Definition demo_client : cnHeat :=
  mkClient (Some "id") (Some "secret") (Some the_base_endpoint)
    (Some (VStr "t0k3n")) (Some (bearer (VStr "t0k3n")))
    (Some (VList [denver])) (Some (VList [])) (Some (VList [])).

Definition demo (script : list outcome) : state :=
  mkState demo_client (scripted script) [].

(** ** Further vocabulary *)

(** The methods that only fetch. *)
Definition read_only (c : call) : bool :=
  match c with
  | GetCredits | GetAntennas _ | GetSiteRadios _ | GetRadio _ | GetSites
  | GetPredictions | GetPredictionsStatuses | GetUsers | GetSubscriptions => true
  | _ => false
  end.

(** A request whose URL starts with [b]. *)
Definition on_base (b : string) (r : request) : Prop :=
  String.prefix b (url r) = true.

Definition is_dict (v : pyval) : bool :=
  match v with
  | VDict _ => true
  | _ => false
  end.

(** [d.get('objects', [])] on the pairs of a decoded object. *)
Definition objects_or_empty (d : list (string * pyval)) : pyval :=
  match assoc "objects" d with
  | Some v => v
  | None => VList []
  end.

(** A constructed client whose [sites] snapshot is an object keyed by site
    id, as a server that answers ['objects': {...}] would leave it. *)
Definition keyed_client : cnHeat :=
  set_sites (VDict [("s1", VDict [("name", VStr "denver")])]) demo_client.

(** * Proofs *)

(** ** The frame of a method: what it leaves alone and what it sends *)

Section Sends.
Variable pre : cnHeat -> Prop.
Variable allowed : request -> Prop.

Lemma sends_pure {A : Type} (r : result A) :
  sends pre allowed (fun st => (r, st)).
Proof.
  intros st _; cbn. repeat split. exists []. now rewrite app_nil_r.
Qed.

Lemma sends_ret {A : Type} (a : A) : sends pre allowed (ret a).
Proof. apply sends_pure. Qed.

Lemma sends_raise {A : Type} (e : exn) : sends pre allowed (@raise A e).
Proof. apply sends_pure. Qed.

Lemma sends_lift {A : Type} (r : result A) : sends pre allowed (lift r).
Proof. apply sends_pure. Qed.

Lemma sends_raise_for_status (r : response) :
  sends pre allowed (raise_for_status r).
Proof.
  unfold raise_for_status.
  destruct (is_client_error _); [apply sends_pure|].
  destruct (is_server_error _); apply sends_pure.
Qed.

Lemma sends_response_json (r : response) : sends pre allowed (response_json r).
Proof. unfold response_json. destruct (content r); apply sends_pure. Qed.

Lemma sends_send (r : request) : allowed r -> sends pre allowed (send r).
Proof.
  intros Hr st _. unfold send.
  destruct (net st _); cbn; repeat split; exists [r]; auto.
Qed.

Lemma sends_bind {A B : Type} (m : M A) (k : A -> M B) :
  sends pre allowed m -> (forall a, sends pre allowed (k a)) ->
  sends pre allowed (bind m k).
Proof.
  intros Hm Hk st Hpre. unfold bind.
  destruct (Hm st Hpre) as (Hs & Hn & new & Hl & Hnew).
  destruct (m st) as [[a | e] st1]; cbn in *.
  - assert (Hpre1 : pre (self st1)) by now rewrite Hs.
    destruct (Hk a st1 Hpre1) as (Hs2 & Hn2 & new2 & Hl2 & Hnew2).
    repeat split; try congruence.
    exists (new ++ new2)%list. split.
    + now rewrite Hl2, Hl, app_assoc.
    + now apply Forall_app.
  - repeat split; auto. now exists new.
Qed.

(** An attribute read binds a value the object really holds. *)
Lemma sends_attr_bind {A B : Type} (n : string) (field : cnHeat -> option A)
    (k : A -> M B) :
  (forall a me, pre me -> field me = Some a -> sends pre allowed (k a)) ->
  sends pre allowed (bind (attr n field) k).
Proof.
  intros Hk st Hpre. unfold bind, attr.
  destruct (field (self st)) as [a |] eqn:Hf.
  - exact (Hk a (self st) Hpre Hf st Hpre).
  - cbn. repeat split. exists []. now rewrite app_nil_r.
Qed.

Lemma sends_try {A : Type} (body : M A) (handler : string -> M A) :
  sends pre allowed body -> (forall e, sends pre allowed (handler e)) ->
  sends pre allowed (try_except body handler).
Proof.
  intros Hb Hh st Hpre. unfold try_except.
  destruct (Hb st Hpre) as (Hs & Hn & new & Hl & Hnew).
  destruct (body st) as [[a | e] st1]; cbn in *.
  - repeat split; auto. now exists new.
  - assert (Hpre1 : pre (self st1)) by now rewrite Hs.
    destruct e as [k msg | | | | |]; cbn;
      try (repeat split; auto; now exists new).
    destruct (Hh msg st1 Hpre1) as (Hs2 & Hn2 & new2 & Hl2 & Hnew2).
    repeat split; try congruence.
    exists (new ++ new2)%list. split.
    + now rewrite Hl2, Hl, app_assoc.
    + now apply Forall_app.
Qed.
End Sends.

Ltac unfold_methods :=
  unfold invoke, create_radio, update_radio, get_credits, get_antennas,
    get_site_radios, get_radio, delete_radio, get_sites, rename_site,
    create_site, get_predictions, create_prediction, get_predictions_statuses,
    rename_prediction, delete_prediction, get_users, add_user, delete_user,
    get_subscriptions, renew_subscriptions, terminate_subscription,
    requests_get, requests_post, requests_patch, requests_delete.

(** Walks down a method body; [use] exploits what an attribute read tells. *)
Ltac sends_step use :=
  first
    [ apply sends_try
    | apply sends_attr_bind;
      let a := fresh "a" in let me := fresh "me" in
      let Hme := fresh "Hme" in let Hf := fresh "Hf" in
      intros a me Hme Hf; use Hme Hf
    | apply sends_bind
    | apply sends_send
    | apply sends_raise_for_status
    | apply sends_response_json
    | apply sends_lift
    | apply sends_ret
    | apply sends_raise
    | intro ].

Ltac forget_read Hme Hf := idtac.

Ltac recall_headers h Hme Hf :=
  destruct Hme as [? ?];
  match type of Hf with
  | headers _ = Some ?a => assert (a = h) by congruence; subst a
  | _ => idtac
  end.

(** No method assigns an attribute or touches the server. *)
Lemma invoke_framed (c : call) : sends anything anything (invoke c).
Proof.
  destruct c; unfold_methods; try destruct radioName;
    repeat sends_step forget_read; exact I.
Qed.

(** On a constructed client every request carries the client's headers. *)
Lemma invoke_polite (b : string) (h : list (string * string)) (c : call) :
  sends (ready b h) (greets h) (invoke c).
Proof.
  destruct c; unfold_methods; try destruct radioName;
    repeat sends_step ltac:(recall_headers h); split; reflexivity.
Qed.

(** A sequence of calls has the frame of its calls. *)
Lemma run_sends (pre : cnHeat -> Prop) (allowed : request -> Prop)
    (calls : list call) :
  (forall c, sends pre allowed (invoke c)) ->
  forall st, pre (self st) ->
    self (run calls st) = self st /\ net (run calls st) = net st /\
    exists new, log (run calls st) = (log st ++ new)%list /\ Forall allowed new.
Proof.
  intros Hc.
  induction calls as [| c calls IH]; intros st Hst; cbn.
  - repeat split. exists []. now rewrite app_nil_r.
  - destruct (Hc c st Hst) as (Hs & Hn & new & Hl & Hnew).
    assert (Hst1 : pre (self (snd (invoke c st)))) by now rewrite Hs.
    destruct (IH _ Hst1) as (Hs2 & Hn2 & new2 & Hl2 & Hnew2).
    unfold run in *. repeat split; try congruence.
    exists (new ++ new2)%list. split.
    + now rewrite Hl2, Hl, app_assoc.
    + now apply Forall_app.
Qed.

(** ** One request per call *)

Lemma sent_sent (st : state) (r1 r2 : list request) :
  sent (sent st r1) r2 = sent st (r1 ++ r2).
Proof. unfold sent; cbn. now rewrite app_assoc. Qed.

Lemma invoke_single (c : call) (st : state) (b : string)
    (h : list (string * string)) (r : request) :
  ready b h (self st) -> request_of b h c = Some r ->
  invoke c st = (wrapped (on_error c (self st)) (narrow c)
                   (net st (log st ++ [r])%list),
                 sent st [r]).
Proof.
  intros [Hb Hh] Hr.
  destruct c; cbn in Hr; inversion Hr; subst r; clear Hr;
    unfold_methods;
    unfold try_except, bind, attr, send, lift, ret, raise;
    cbn [self net log]; rewrite ?Hb, ?Hh; cbn [self net log];
    unfold wrapped, reply, raise_for_status, response_json, get_request,
      antennas_request, radio_patch, raise, ret, sent, narrow;
    cbn [list_returning];
    (destruct (net st _) as [msg | resp]; [ | destruct (is_client_error _);
      [ | destruct (is_server_error _); [ | destruct (content resp) ] ] ]);
    cbn.
  all: try reflexivity.
  all: try (destruct v; cbn; try reflexivity; destruct (assoc _ _); reflexivity).
  all: unfold rbind, getitem; destruct (sites (self st)) as [snapshot |];
    cbn; try reflexivity;
    destruct snapshot; cbn; try reflexivity;
    destruct (assoc _ _) as [site |]; cbn; try reflexivity;
    destruct site; cbn; try reflexivity;
    destruct (assoc _ _); reflexivity.
Qed.


(** ** Exceptions that reach the enclosing [try] *)

(** No [RequestException] leaves a single-request method. *)
Lemma wrapped_escapes (c : call) (me : cnHeat) (o : outcome) (e : exn) :
  wrapped (on_error c me) (narrow c) o = Raise e -> is_request_exception e = false.
Proof.
  unfold wrapped, reply, narrow, on_error, dict_get, rbind, getitem.
  destruct o as [msg | resp]; cbn.
  2: destruct (is_client_error _); [ | destruct (is_server_error _);
       [ | destruct (content resp) as [v | err] ] ].
  all: repeat match goal with
         | |- context [match ?x with _ => _ end] =>
             match x with
             | context [match _ with _ => _ end] => fail 1
             | _ => destruct x
             end
         | |- context [if ?x then _ else _] => destruct x
         end; intros E; inversion E; reflexivity.
Qed.

Lemma lookup_loop_escapes (items : list pyval) (wanted field : string) (e : exn) :
  lookup_loop items wanted field = Raise e -> is_request_exception e = false.
Proof.
  induction items as [| s rest IH]; cbn; [discriminate|].
  unfold getitem.
  destruct s; try (intros E; inversion E; reflexivity).
  destruct (assoc "id" d) as [i |]; [ | intros E; inversion E; reflexivity].
  destruct (eq_str i wanted); [ | exact IH].
  destruct (assoc field d); intros E; inversion E; reflexivity.
Qed.

Lemma default_radio_name_escapes (fetched antennas : pyval) (site_id : string)
    (freq : pynum) (antennaId : string) (azimuth : pynum) (e : exn) :
  default_radio_name fetched antennas site_id freq antennaId azimuth = Raise e ->
  is_request_exception e = false.
Proof.
  unfold default_radio_name, rbind.
  destruct (iterate fetched) as [site_items | e1] eqn:E1.
  2: { destruct fetched; inversion E1; intros E; inversion E; subst; reflexivity. }
  destruct (lookup_loop site_items site_id "name") as [site_name | e2] eqn:E2.
  2: { intros E; inversion E; subst. eapply lookup_loop_escapes; eauto. }
  destruct (iterate antennas) as [antenna_items | e3] eqn:E3.
  2: { destruct antennas; inversion E3; intros E; inversion E; subst; reflexivity. }
  destruct (lookup_loop antenna_items antennaId "antenna") as [antenna_name | e4] eqn:E4.
  2: { intros E; inversion E; subst. eapply lookup_loop_escapes; eauto. }
  destruct antenna_name as [a |]; cbn; [ | intros E; inversion E; reflexivity].
  destruct a; cbn; try (intros E; inversion E; reflexivity).
  destruct site_name as [n |]; cbn; [ | intros E; inversion E; reflexivity].
  destruct n; cbn; intros E; inversion E; reflexivity.
Qed.

Lemma wrapped_objects (prefix : string) (o : outcome) :
  wrapped (runtime_error prefix) (fun body => dict_get body "objects" (VList [])) o =
  match objects_of o with
  | Raise (RequestException _ msg) => runtime_error prefix msg
  | other => other
  end.
Proof.
  unfold wrapped, objects_of, rbind.
  destruct (reply o) as [body | e] eqn:E.
  - unfold dict_get. destruct body; try reflexivity. now destruct (assoc _ _).
  - destruct e; reflexivity.
Qed.

Lemma reply_raises (o : outcome) (e : exn) :
  reply o = Raise e -> is_request_exception e = true.
Proof.
  unfold reply. destruct o as [msg | r].
  - intros E; inversion E; reflexivity.
  - destruct (is_client_error _); [intros E; inversion E; reflexivity|].
    destruct (is_server_error _); [intros E; inversion E; reflexivity|].
    destruct (content r); intros E; inversion E; reflexivity.
Qed.

(** ** [create_radio], request by request *)

Lemma create_radio_run (st : state) (b : string) (h : list (string * string))
    (site_id : string) (freq : pynum) (antennaId : string)
    (azimuth agl : pynum) (radioName : option string)
    (fol ar radius gain tilt clearance power : pynum) :
  ready b h (self st) ->
  let r1 := antennas_request b h freq in
  let r2 := get_request b "sites" h in
  create_radio site_id freq antennaId azimuth agl radioName fol ar radius gain
    tilt clearance power st =
  match objects_of (net st (log st ++ [r1])%list) with
  | Raise (RequestException _ msg) =>
      (runtime_error "Failed to fetch antennas: " msg, sent st [r1])
  | Raise e => (Raise e, sent st [r1])
  | Ok antennas =>
      match objects_of (net st (log st ++ [r1; r2])%list) with
      | Raise (RequestException _ msg) =>
          (runtime_error "Failed to fetch sites: " msg, sent st [r1; r2])
      | Raise e => (Raise e, sent st [r1; r2])
      | Ok fetched =>
          match chosen_name radioName fetched antennas site_id freq antennaId
                  azimuth with
          | Raise e => (Raise e, sent st [r1; r2])
          | Ok name =>
              let r3 := radio_post b h site_id
                          (radio_data antennaId name azimuth fol freq agl ar
                             radius gain tilt clearance power) in
              (wrapped (runtime_error "Failed to create radio: ") Ok
                 (net st (log st ++ [r1; r2; r3])%list),
               sent st [r1; r2; r3])
          end
      end
  end.
Proof.
  intros Hst r1 r2.
  pose proof (invoke_single (GetAntennas freq) st b h r1 Hst eq_refl) as E1.
  assert (Hst1 : ready b h (self (sent st [r1]))) by exact Hst.
  pose proof (invoke_single GetSites (sent st [r1]) b h r2 Hst1 eq_refl) as E2.
  cbn [invoke] in E1, E2. rewrite sent_sent in E2. cbn [app] in E2.
  replace (log (sent st [r1]) ++ [r2])%list with (log st ++ [r1; r2])%list in E2
    by (cbn; now rewrite <- app_assoc).
  change (on_error (GetAntennas freq) (self st))
    with (runtime_error "Failed to fetch antennas: ") in E1.
  change (on_error GetSites (self (sent st [r1])))
    with (runtime_error "Failed to fetch sites: ") in E2.
  change (narrow (GetAntennas freq))
    with (fun body => dict_get body "objects" (VList [])) in E1.
  change (narrow GetSites)
    with (fun body => dict_get body "objects" (VList [])) in E2.
  rewrite wrapped_objects in E1, E2.
  unfold create_radio, try_except at 1, bind at 1. rewrite E1. clear E1.
  destruct (objects_of (net st (log st ++ [r1])%list)) as [antennas | e1] eqn:O1.
  2: { destruct e1; reflexivity. }
  unfold bind at 1. rewrite E2. clear E2.
  destruct (objects_of (net _ (log st ++ [r1; r2])%list)) as [fetched | e2] eqn:O2.
  2: { destruct e2; reflexivity. }
  unfold bind at 1.
  assert (Hname : (match radioName with
                   | Some given => ret given
                   | None => lift (default_radio_name fetched antennas site_id
                                     freq antennaId azimuth)
                   end) (sent st [r1; r2])
                  = (chosen_name radioName fetched antennas site_id freq
                       antennaId azimuth, sent st [r1; r2])).
  { destruct radioName; reflexivity. }
  rewrite Hname. clear Hname.
  destruct (chosen_name _ _ _ _ _ _ _) as [name | e3] eqn:N.
  2: { assert (is_request_exception e3 = false).
       { destruct radioName; cbn in N; [discriminate|].
         eapply default_radio_name_escapes; eauto. }
       destruct e3; try reflexivity; discriminate. }
  destruct Hst as [Hb Hh].
  unfold bind, attr, requests_post, send, sent; cbn [self net log].
  rewrite Hb; cbn [self net log]. rewrite Hh; cbn [self net log].
  rewrite <- app_assoc. cbn [app].
  unfold wrapped, reply, raise_for_status, response_json, raise, ret, runtime_error,
    radio_post.
  clear O1 O2.
  destruct (net st _) as [msg | resp]; [reflexivity|].
  destruct (is_client_error _); [reflexivity|].
  destruct (is_server_error _); [reflexivity|].
  destruct (content resp); reflexivity.
Qed.

(** ** Construction, request by request *)

Lemma authenticate_run (st : state) (cid sec : string) :
  base_endpoint (self st) = Some the_base_endpoint ->
  client_id (self st) = Some cid -> client_secret (self st) = Some sec ->
  _authenticate st =
  (match token_of (net st (log st ++ [auth_request cid sec])%list) with
   | Raise (RequestException _ msg) =>
       Raise (RuntimeError ("Authentication failed: " ++ msg))
   | other => other
   end, sent st [auth_request cid sec]).
Proof.
  intros Hb Hc Hs.
  unfold _authenticate, try_except, bind, attr, requests_post, send, lift.
  rewrite Hb, Hc, Hs; cbn [self net log].
  unfold token_of, rbind, reply, raise_for_status, response_json, raise, ret,
    auth_request, sent.
  destruct (net st _) as [msg | resp]; [reflexivity|].
  destruct (is_client_error _); [reflexivity|].
  destruct (is_server_error _); [reflexivity|].
  destruct (content resp) as [body | err]; [ | reflexivity].
  unfold dict_get. destruct body; try reflexivity. now destruct (assoc _ _).
Qed.

Lemma list_call_run (c : call) (st : state) (b : string)
    (h : list (string * string)) (r : request) :
  ready b h (self st) -> request_of b h c = Some r ->
  list_returning c = true -> (forall i, c <> GetSiteRadios i) ->
  invoke c st =
  (match objects_of (net st (log st ++ [r])%list) with
   | Raise (RequestException _ msg) => runtime_error (error_prefix c) msg
   | other => other
   end, sent st [r]).
Proof.
  intros Hst Hr Hl Hc.
  rewrite (invoke_single c st b h r Hst Hr).
  rewrite <- wrapped_objects. f_equal.
  destruct c; try discriminate; try reflexivity.
  now elim (Hc site_id).
Qed.

Lemma bind_assign {B : Type} (f : cnHeat -> cnHeat) (k : unit -> M B)
    (st : state) :
  bind (assign f) k st = k tt (mkState (f (self st)) (net st) (log st)).
Proof. reflexivity. Qed.

Lemma bind_run {A B : Type} (m : M A) (k : A -> M B) (st st' : state)
    (r : result A) :
  m st = (r, st') ->
  bind m k st = match r with
                | Ok a => k a st'
                | Raise e => (Raise e, st')
                end.
Proof. intros E. unfold bind. now rewrite E. Qed.

Lemma construct_run (cid sec : string) (server : Server) :
  let r0 := auth_request cid sec in
  construct cid sec server =
  match token_of (server [r0]) with
  | Raise (RequestException _ msg) =>
      (Raise (RuntimeError ("Authentication failed: " ++ msg)),
       mkState (unauthenticated cid sec) server [r0])
  | Raise e => (Raise e, mkState (unauthenticated cid sec) server [r0])
  | Ok tok =>
      let h := bearer tok in
      let me := authenticated cid sec tok in
      let r1 := get_request the_base_endpoint "sites" h in
      let r2 := get_request the_base_endpoint "predictions" h in
      let r3 := get_request the_base_endpoint "users" h in
      match objects_of (server [r0; r1]) with
      | Raise (RequestException _ msg) =>
          (Raise (RuntimeError ("Failed to fetch sites: " ++ msg)),
           mkState me server [r0; r1])
      | Raise e => (Raise e, mkState me server [r0; r1])
      | Ok s =>
          match objects_of (server [r0; r1; r2]) with
          | Raise (RequestException _ msg) =>
              (Raise (RuntimeError ("Failed to fetch predicitions: " ++ msg)),
               mkState (set_sites s me) server [r0; r1; r2])
          | Raise e => (Raise e, mkState (set_sites s me) server [r0; r1; r2])
          | Ok p =>
              match objects_of (server [r0; r1; r2; r3]) with
              | Raise (RequestException _ msg) =>
                  (Raise (RuntimeError ("Failed to get users: " ++ msg)),
                   mkState (set_predictions p (set_sites s me)) server
                     [r0; r1; r2; r3])
              | Raise e =>
                  (Raise e,
                   mkState (set_predictions p (set_sites s me)) server
                     [r0; r1; r2; r3])
              | Ok u =>
                  (Ok tt,
                   mkState (set_users u (set_predictions p (set_sites s me)))
                     server [r0; r1; r2; r3])
              end
          end
      end
  end.
Proof.
  intros r0. unfold construct, __init__.
  rewrite !bind_assign; cbn [self net log].
  match goal with
  | |- context [bind _authenticate ?k ?st] =>
      rewrite (bind_run _authenticate k st _ _
                 (authenticate_run st cid sec eq_refl eq_refl eq_refl))
  end.
  cbn [self net log app sent]. fold r0. fold (unauthenticated cid sec).
  destruct (token_of (server [r0])) as [tok | e0]; [ | destruct e0; reflexivity].
  rewrite bind_assign; cbn [self net log].
  unfold bind at 1, attr at 1; cbn [self net log token set_token].
  rewrite bind_assign; cbn [self net log].
  fold (bearer tok). fold (authenticated cid sec tok).
  set (h := bearer tok). set (me := authenticated cid sec tok).
  set (r1 := get_request the_base_endpoint "sites" h).
  set (r2 := get_request the_base_endpoint "predictions" h).
  set (r3 := get_request the_base_endpoint "users" h).
  match goal with
  | |- context [bind get_sites ?k ?st] =>
      rewrite (bind_run get_sites k st _ _
                 (list_call_run GetSites st the_base_endpoint h r1
                    (conj eq_refl eq_refl) eq_refl eq_refl
                    ltac:(discriminate)))
  end.
  cbn [self net log app sent].
  destruct (objects_of (server [r0; r1])) as [s | e1]; [ | destruct e1; reflexivity].
  rewrite bind_assign; cbn [self net log].
  match goal with
  | |- context [bind get_predictions ?k ?st] =>
      rewrite (bind_run get_predictions k st _ _
                 (list_call_run GetPredictions st the_base_endpoint h r2
                    (conj eq_refl eq_refl) eq_refl eq_refl
                    ltac:(discriminate)))
  end.
  cbn [self net log app sent].
  destruct (objects_of (server [r0; r1; r2])) as [p | e2];
    [ | destruct e2; reflexivity].
  rewrite bind_assign; cbn [self net log].
  match goal with
  | |- context [bind get_users ?k ?st] =>
      rewrite (bind_run get_users k st _ _
                 (list_call_run GetUsers st the_base_endpoint h r3
                    (conj eq_refl eq_refl) eq_refl eq_refl
                    ltac:(discriminate)))
  end.
  cbn [self net log app sent].
  destruct (objects_of (server [r0; r1; r2; r3])) as [u | e3];
    [ | destruct e3; reflexivity].
  reflexivity.
Qed.

(** ** Answers *)

Lemma answers_object_reply (o : outcome) (d : list (string * pyval)) :
  answers_object o d -> reply o = Ok (VDict d).
Proof.
  intros (r & -> & Hs & Hc). unfold reply.
  unfold is_error_status in Hs. apply orb_false_iff in Hs as [-> ->].
  now rewrite Hc.
Qed.

Lemma answers_list_objects (o : outcome) (items : list pyval) :
  answers_list o items -> objects_of o = Ok (VList items).
Proof.
  intros (d & Hd & Ho). unfold objects_of.
  rewrite (answers_object_reply _ _ Hd). cbn. now rewrite Ho.
Qed.

Lemma two_xx_passes (s : Z) : is_2xx s = true -> is_error_status s = false.
Proof.
  unfold is_2xx, is_error_status, is_client_error, is_server_error. lia.
Qed.

Lemma answered_sent (st : state) (r : request) :
  answered (sent st [r]) = net st (log st ++ [r])%list.
Proof. reflexivity. Qed.

Lemma request_of_list (b : string) (h : list (string * string)) (c : call) :
  list_returning c = true -> exists r, request_of b h c = Some r.
Proof. destruct c; try discriminate; intros _; eexists; reflexivity. Qed.

(** A list-returning call on an object answer: the ['objects'] of the
    answer, or the empty list. *)
Lemma list_call_object (c : call) (st : state) (b : string)
    (h : list (string * string)) (d : list (string * pyval)) :
  ready b h (self st) -> list_returning c = true ->
  answers_object (answered (snd (invoke c st))) d ->
  fst (invoke c st) = Ok (match assoc "objects" d with
                          | Some v => v
                          | None => VList []
                          end).
Proof.
  intros Hst Hl Ha.
  destruct (request_of_list b h c Hl) as [r Hr].
  rewrite (invoke_single c st b h r Hst Hr) in *. cbn [fst snd] in *.
  rewrite answered_sent in Ha.
  unfold wrapped. rewrite (answers_object_reply _ _ Ha).
  unfold narrow. rewrite Hl. cbn. now destruct (assoc "objects" d).
Qed.

(** A failed request ends in the handler of the method: for every method
    but [get_site_radios], a [RuntimeError] whose message is the method's
    literal prefix followed by [str(e)]. *)
Lemma invoke_error (c : call) (st : state) (b : string)
    (h : list (string * string)) (r : request) (k : req_exn) (msg : string) :
  ready b h (self st) -> request_of b h c = Some r ->
  reply (net st (log st ++ [r])%list) = Raise (RequestException k msg) ->
  fst (invoke c st) = on_error c (self st) msg /\
  ((forall i, c <> GetSiteRadios i) ->
   fst (invoke c st) = Raise (RuntimeError (error_prefix c ++ msg))).
Proof.
  intros Hst Hr E.
  rewrite (invoke_single c st b h r Hst Hr). cbn [fst].
  unfold wrapped. rewrite E. split; [reflexivity|].
  intros Hc. destruct c; try reflexivity. now elim (Hc site_id).
Qed.

(** ** The claims *)

(** C6. After construction no public method, whatever its outcome, writes
    the snapshots: over any sequence of calls on any client and against any
    server, [sites], [predictions] and [users] keep their values. *)
Theorem snapshots_never_rewritten (calls : list call) (st : state) :
  sites (self (run calls st)) = sites (self st) /\
  predictions (self (run calls st)) = predictions (self st) /\
  users (self (run calls st)) = users (self st).
Proof.
  destruct (run_sends anything anything calls invoke_framed st I) as (Hs & _).
  now rewrite Hs.
Qed.

(** C10. On a constructed client, a list-returning method whose request is
    answered by a response that [raise_for_status] lets through (every 2xx
    is one) and that decodes to an object without the key ['objects']
    returns the empty list; it does not raise. *)
Theorem missing_objects_is_empty_list (c : call) (st : state) (b : string)
    (h : list (string * string)) (d : list (string * pyval)) :
  ready b h (self st) ->
  list_returning c = true ->
  answers_object (answered (snd (invoke c st))) d ->
  assoc "objects" d = None ->
  fst (invoke c st) = Ok (VList []).
Proof.
  intros Hst Hl Ha Hd.
  rewrite (list_call_object c st b h d Hst Hl Ha). now rewrite Hd.
Qed.

Lemma missing_objects_is_empty_list_witness :
  fst (invoke GetUsers (demo [ok_json (VDict [("count", VInt 0)])])) = Ok (VList []).
Proof.
  apply (missing_objects_is_empty_list GetUsers
           (demo [ok_json (VDict [("count", VInt 0)])]) the_base_endpoint
           (bearer (VStr "t0k3n")) [("count", VInt 0)]).
  - split; reflexivity.
  - reflexivity.
  - eexists; repeat split; reflexivity.
  - reflexivity.
Defined.

(** ** The lookup loops and the text of the default name *)

Lemma item0_split (c : ascii) (s : string) : item0 (split c s) = up_to_first c s.
Proof.
  induction s as [| x rest IH]; cbn; [reflexivity|].
  destruct (Ascii.eqb x c); [reflexivity|].
  unfold item0 in IH. destruct (split c rest) as [| p q]; cbn in *; now rewrite <- IH.
Qed.

Lemma first_entry_found (wanted field : string) (items : list pyval) (name : pyval) :
  first_entry wanted field items name ->
  lookup_loop items wanted field = Ok (Some name).
Proof.
  induction 1 as [d name rest Hid Hname | d i rest name Hid Hne _ IH]; cbn.
  - rewrite Hid. cbn. rewrite String.eqb_refl. now rewrite Hname.
  - rewrite Hid, Hne. exact IH.
Qed.

Lemma absent_not_found (wanted field : string) (items : list pyval) :
  Forall (entry field) items -> absent wanted items ->
  lookup_loop items wanted field = Ok None.
Proof.
  unfold absent.
  induction 1 as [| v rest (d & i & n & -> & Hid & Hname) _ IH]; intros Ha; cbn;
    [reflexivity|].
  inversion Ha as [| ? ? Hv Hrest]; subst.
  rewrite Hid. rewrite (Hv i) by (cbn; now rewrite Hid).
  now apply IH.
Qed.

Lemma entries_loop (wanted field : string) (items : list pyval) :
  Forall (entry field) items ->
  lookup_loop items wanted field = Ok None \/
  exists n, lookup_loop items wanted field = Ok (Some (VStr n)).
Proof.
  induction 1 as [| v rest (d & i & n & -> & Hid & Hname) _ IH]; cbn;
    [now left|].
  rewrite Hid. destruct (eq_str i wanted); [ | exact IH].
  rewrite Hname. right. now exists n.
Qed.

Lemma default_radio_name_found (fetched antennas : list pyval)
    (site_id : string) (freq : pynum) (antennaId : string) (azimuth : pynum)
    (site_name antenna_name : string) :
  first_entry site_id "name" fetched (VStr site_name) ->
  first_entry antennaId "antenna" antennas (VStr antenna_name) ->
  default_radio_name (VList fetched) (VList antennas) site_id freq antennaId azimuth
  = Ok (default_name antenna_name azimuth freq site_name).
Proof.
  intros Hs Ha. unfold default_radio_name, default_name. cbn [iterate rbind].
  rewrite (first_entry_found _ _ _ _ Hs). cbn [rbind].
  rewrite (first_entry_found _ _ _ _ Ha). cbn [rbind local split_first upper_of].
  now rewrite !item0_split.
Qed.

Lemma default_radio_name_unbound (fetched antennas : list pyval)
    (site_id : string) (freq : pynum) (antennaId : string) (azimuth : pynum) :
  Forall (entry "name") fetched -> Forall (entry "antenna") antennas ->
  absent site_id fetched \/ absent antennaId antennas ->
  exists var,
    default_radio_name (VList fetched) (VList antennas) site_id freq antennaId azimuth
    = Raise (UnboundLocalError var).
Proof.
  intros Hf Ha Hmiss. unfold default_radio_name. cbn [iterate rbind].
  destruct (entries_loop antennaId "antenna" antennas Ha) as [Ea | [an Ea]];
    destruct (entries_loop site_id "name" fetched Hf) as [Es | [sn Es]];
    rewrite Es; cbn [rbind]; rewrite Ea; cbn [rbind local split_first].
  - now exists "antenna_name".
  - now exists "antenna_name".
  - now exists "site_name".
  - destruct Hmiss as [H | H].
    + rewrite (absent_not_found _ _ _ Hf H) in Es. discriminate.
    + rewrite (absent_not_found _ _ _ Ha H) in Ea. discriminate.
Qed.

(** C2. [create_radio] without a name, both fetches answered by lists of
    entries, the site id or the antenna id absent from its list: the loop
    looking for it runs off the end without raising and without binding a
    name.  Nothing in the naming code raises a lookup error: the call ends
    when the f-string reads the unbound local ([UnboundLocalError], which
    the handler does not catch), after the two GETs and before any POST. *)
Theorem absent_id_leaves_name_unbound (st : state) (b : string)
    (h : list (string * string)) (site_id : string) (freq : pynum)
    (antennaId : string) (azimuth agl fol ar radius gain tilt clearance power : pynum)
    (fetched antennas : list pyval) :
  ready b h (self st) ->
  let r1 := antennas_request b h freq in
  let r2 := get_request b "sites" h in
  let attempt := create_radio site_id freq antennaId azimuth agl None fol ar
                   radius gain tilt clearance power st in
  answers_list (net st (log st ++ [r1])%list) antennas ->
  answers_list (net st (log st ++ [r1; r2])%list) fetched ->
  Forall (entry "name") fetched ->
  Forall (entry "antenna") antennas ->
  absent site_id fetched \/ absent antennaId antennas ->
  (absent site_id fetched -> lookup_loop fetched site_id "name" = Ok None) /\
  (absent antennaId antennas ->
   lookup_loop antennas antennaId "antenna" = Ok None) /\
  (exists var, fst attempt = Raise (UnboundLocalError var)) /\
  log (snd attempt) = (log st ++ [r1; r2])%list.
Proof.
  intros Hst r1 r2 attempt Ha Hs Hf Hant Hmiss.
  split; [ | split ].
  - now apply absent_not_found.
  - now apply absent_not_found.
  - subst attempt.
    rewrite (create_radio_run st b h site_id freq antennaId azimuth agl None fol
               ar radius gain tilt clearance power Hst).
    fold r1 r2.
    rewrite (answers_list_objects _ _ Ha), (answers_list_objects _ _ Hs).
    cbn [chosen_name].
    destruct (default_radio_name_unbound fetched antennas site_id freq antennaId
                azimuth Hf Hant Hmiss) as [var ->].
    split; [now exists var | reflexivity].
Qed.

Lemma absent_id_leaves_name_unbound_witness :
  exists var,
    fst (create_radio "s9" (NFloat "5.8") "a7" (NInt 120) (NInt 20) None
           (NInt (-1)) (NInt 0) (NInt 12875) (NFloat "18.5") (NInt (-2))
           (NInt 30) (NFloat "27.2") (demo [objects [hpa90]; objects [denver]]))
    = Raise (UnboundLocalError var).
Proof.
  refine (proj1 (proj2 (proj2
    (absent_id_leaves_name_unbound (demo [objects [hpa90]; objects [denver]])
       the_base_endpoint (bearer (VStr "t0k3n")) "s9" (NFloat "5.8") "a7"
       (NInt 120) (NInt 20) (NInt (-1)) (NInt 0) (NInt 12875) (NFloat "18.5")
       (NInt (-2)) (NInt 30) (NFloat "27.2") [denver] [hpa90]
       _ _ _ _ _ _)))).
  - split; reflexivity.
  - eexists; split; [eexists; repeat split; reflexivity | reflexivity].
  - eexists; split; [eexists; repeat split; reflexivity | reflexivity].
  - repeat constructor. exists [("id", VStr "s1"); ("name", VStr "denver")],
      (VStr "s1"), "denver". repeat split; reflexivity.
  - repeat constructor. exists [("id", VStr "a7"); ("antenna", VStr "HPA-90")],
      (VStr "a7"), "HPA-90". repeat split; reflexivity.
  - left. repeat constructor. intros i E. cbn in E. inversion E. reflexivity.
Defined.

(** C3. [create_radio] without a name, the site id and the antenna id both
    found in the freshly fetched lists, the site name in ASCII: the third
    request is the POST to [radio/{site_id}] whose JSON body has, under
    ['name'], [AP-{antennaPrefix}-{azimuth}-{freqInteger} GHZ.{SITENAME}], the
    prefix being the antenna name up to its first ['-'], the integer the text
    of the frequency up to its first ['.'], the site name in upper case. *)
Theorem default_name_is_sent (st : state) (b : string)
    (h : list (string * string)) (site_id : string) (freq : pynum)
    (antennaId : string) (azimuth agl fol ar radius gain tilt clearance power : pynum)
    (fetched antennas : list pyval) (site_name antenna_name : string) :
  ready b h (self st) ->
  let r1 := antennas_request b h freq in
  let r2 := get_request b "sites" h in
  answers_list (net st (log st ++ [r1])%list) antennas ->
  answers_list (net st (log st ++ [r1; r2])%list) fetched ->
  first_entry site_id "name" fetched (VStr site_name) ->
  first_entry antennaId "antenna" antennas (VStr antenna_name) ->
  ascii_text site_name = true ->
  log (snd (create_radio site_id freq antennaId azimuth agl None fol ar radius
              gain tilt clearance power st))
  = (log st ++
     [r1; r2;
      mkRequest POST (b ++ "radio/" ++ site_id) (Some h) None None
        (Some
           (VDict
              [ ("antenna", VStr antennaId);
                ("name",
                 VStr ("AP-" ++ up_to_first "-" antenna_name ++ "-"
                         ++ py_str (num azimuth) ++ "-"
                         ++ up_to_first "." (py_str (num freq)) ++ " GHZ."
                         ++ upper site_name));
                ("azimuth", num azimuth);
                ("foliage_tuning", num fol);
                ("frequency(ghz)", num freq);
                ("height(m)", num agl);
                ("height_rooftop(m)", num ar);
                ("radius(m)", num radius);
                ("sm_gain(dbi)", num gain);
                ("tilt", num tilt);
                ("txclearance(m)", num clearance);
                ("txpower(dbm)", num power) ]))])%list.
Proof.
  intros Hst r1 r2 Ha Hs Hsite Hant _.
  rewrite (create_radio_run st b h site_id freq antennaId azimuth agl None fol
             ar radius gain tilt clearance power Hst).
  fold r1 r2.
  rewrite (answers_list_objects _ _ Ha), (answers_list_objects _ _ Hs).
  cbn [chosen_name].
  now rewrite (default_radio_name_found fetched antennas site_id freq antennaId
                 azimuth site_name antenna_name Hsite Hant).
Qed.

(** The example of the specification: antenna "HPA-90", azimuth 120,
    frequency 5.8, site "denver". *)
Lemma default_name_is_sent_witness :
  map json
    (log (snd (create_radio "s1" (NFloat "5.8") "a7" (NInt 120) (NInt 20) None
                 (NInt (-1)) (NInt 0) (NInt 12875) (NFloat "18.5") (NInt (-2))
                 (NInt 30) (NFloat "27.2")
                 (demo [objects [hpa90]; objects [denver]; ok_json VNone]))))
  = [None; None;
     Some (VDict [ ("antenna", VStr "a7");
                   ("name", VStr "AP-HPA-120-5 GHZ.DENVER");
                   ("azimuth", VInt 120);
                   ("foliage_tuning", VInt (-1));
                   ("frequency(ghz)", VFloat "5.8");
                   ("height(m)", VInt 20);
                   ("height_rooftop(m)", VInt 0);
                   ("radius(m)", VInt 12875);
                   ("sm_gain(dbi)", VFloat "18.5");
                   ("tilt", VInt (-2));
                   ("txclearance(m)", VInt 30);
                   ("txpower(dbm)", VFloat "27.2") ])].
Proof.
  rewrite (default_name_is_sent
             (demo [objects [hpa90]; objects [denver]; ok_json VNone])
             the_base_endpoint (bearer (VStr "t0k3n")) "s1" (NFloat "5.8") "a7"
             (NInt 120) (NInt 20) (NInt (-1)) (NInt 0) (NInt 12875)
             (NFloat "18.5") (NInt (-2)) (NInt 30) (NFloat "27.2")
             [denver] [hpa90] "denver" "HPA-90").
  - vm_compute; reflexivity.
  - split; reflexivity.
  - eexists; split; [eexists; repeat split; reflexivity | reflexivity].
  - eexists; split; [eexists; repeat split; reflexivity | reflexivity].
  - now apply entry_here.
  - now apply entry_here.
  - reflexivity.
Defined.

(** C9. Every [create_radio] sends GET antennas first, then GET sites, then
    the POST, whether or not a name was given: a call that returns has sent
    exactly these three requests, with the given name if there was one; a
    call that raises has sent a prefix of them. *)
Theorem create_radio_fetches_first (st : state) (b : string)
    (h : list (string * string)) (site_id : string) (freq : pynum)
    (antennaId : string) (azimuth agl : pynum) (radioName : option string)
    (fol ar radius gain tilt clearance power : pynum) :
  ready b h (self st) ->
  let r1 := antennas_request b h freq in
  let r2 := get_request b "sites" h in
  let r3 := fun name =>
              radio_post b h site_id
                (radio_data antennaId name azimuth fol freq agl ar radius gain
                   tilt clearance power) in
  let attempt := create_radio site_id freq antennaId azimuth agl radioName fol
                   ar radius gain tilt clearance power st in
  (forall v, fst attempt = Ok v ->
     exists name, log (snd attempt) = (log st ++ [r1; r2; r3 name])%list /\
                  forall given, radioName = Some given -> name = given) /\
  (log (snd attempt) = (log st ++ [r1])%list \/
   log (snd attempt) = (log st ++ [r1; r2])%list \/
   exists name, log (snd attempt) = (log st ++ [r1; r2; r3 name])%list).
Proof.
  intros Hst r1 r2 r3 attempt. subst attempt.
  rewrite (create_radio_run st b h site_id freq antennaId azimuth agl radioName
             fol ar radius gain tilt clearance power Hst).
  fold r1 r2.
  destruct (objects_of (net st (log st ++ [r1])%list)) as [antennas | e1].
  2: { split; [ | left; destruct e1; reflexivity ].
       intros v E. destruct e1; discriminate. }
  destruct (objects_of (net st (log st ++ [r1; r2])%list)) as [fetched | e2].
  2: { split; [ | right; left; destruct e2; reflexivity ].
       intros v E. destruct e2; discriminate. }
  destruct (chosen_name _ _ _ _ _ _ _) as [name | e3] eqn:N.
  2: { split; [ | right; left; reflexivity ]. intros v E. discriminate. }
  cbn zeta. split.
  - intros v _. exists name. split; [reflexivity|].
    intros given ->. cbn in N. now inversion N.
  - right; right. now exists name.
Qed.

Lemma create_radio_fetches_first_witness :
  map method
    (log (snd (create_radio "s1" (NFloat "5.8") "a7" (NInt 120) (NInt 20)
                 (Some "North sector") (NInt (-1)) (NInt 0) (NInt 12875)
                 (NFloat "18.5") (NInt (-2)) (NInt 30) (NFloat "27.2")
                 (demo [objects []; objects []; ok_json VNone]))))
  = [GET; GET; POST].
Proof.
  destruct (proj1 (create_radio_fetches_first
                     (demo [objects []; objects []; ok_json VNone])
                     the_base_endpoint (bearer (VStr "t0k3n")) "s1"
                     (NFloat "5.8") "a7" (NInt 120) (NInt 20)
                     (Some "North sector") (NInt (-1)) (NInt 0) (NInt 12875)
                     (NFloat "18.5") (NInt (-2)) (NInt 30) (NFloat "27.2")
                     (conj eq_refl eq_refl)) VNone eq_refl) as [name [E _]].
  rewrite E. reflexivity.
Defined.

(** C4. With the required arguments only, the one request of
    [update_radio] is the PATCH whose body is the documented one: the twelve
    fields, with height(m)=20, foliage_tuning=-1, height_rooftop(m)=0,
    radius(m)=12875, sm_gain(dbi)=18.5, tilt=-2, txclearance(m)=30 and
    txpower(dbm)=27.2.  [create_radio] sends its POST with that body whenever
    the two fetches are answered by lists in which the site id and the antenna
    id are found with text names; every body it sends in any run is that one,
    and a run that returns has sent it. *)
Theorem default_radio_body (st : state) (b : string) (h : list (string * string))
    (id : string) (freq : pynum) (antennaId : string) (azimuth : pynum) :
  ready b h (self st) ->
  let updated := update_radio_required id freq antennaId azimuth st in
  let created := create_radio_required id freq antennaId azimuth st in
  log (snd updated)
  = (log st ++ [radio_patch b h id
                  (documented_body antennaId "No Name" azimuth freq)])%list /\
  (forall fetched antennas site_name antenna_name,
     answers_list (net st (log st ++ [antennas_request b h freq])%list) antennas ->
     answers_list
       (net st (log st ++ [antennas_request b h freq;
                           get_request b "sites" h])%list) fetched ->
     first_entry id "name" fetched (VStr site_name) ->
     first_entry antennaId "antenna" antennas (VStr antenna_name) ->
     exists name,
       log (snd created)
       = (log st ++
          [antennas_request b h freq; get_request b "sites" h;
           mkRequest POST (b ++ "radio/" ++ id) (Some h) None None
             (Some (documented_body antennaId name azimuth freq))])%list) /\
  (exists new, log (snd created) = (log st ++ new)%list /\
     forall r body, In r new -> json r = Some body ->
       exists name, body = documented_body antennaId name azimuth freq) /\
  (forall v, fst created = Ok v ->
     exists r name, In r (log (snd created)) /\ method r = POST /\
       json r = Some (documented_body antennaId name azimuth freq)).
Proof.
  intros Hst updated created.
  split; [ | split; [ | split ] ].
  - subst updated. unfold update_radio_required.
    change (update_radio id freq antennaId azimuth default_aglHeightMeters
              default_radioName default_folliageTuning default_arHeightMeters
              default_radiusMeters default_smGain default_tilt
              default_txClearanceMeters default_txPowerDbm)
      with (invoke (UpdateRadio id freq antennaId azimuth default_aglHeightMeters
              default_radioName default_folliageTuning default_arHeightMeters
              default_radiusMeters default_smGain default_tilt
              default_txClearanceMeters default_txPowerDbm)).
    erewrite invoke_single; [ | exact Hst | reflexivity ].
    reflexivity.
  - intros fetched antennas site_name antenna_name Ha Hs Hsite Hant.
    subst created. unfold create_radio_required.
    rewrite (create_radio_run st b h id freq antennaId azimuth _ _ _ _ _ _ _ _ _ Hst).
    rewrite (answers_list_objects _ _ Ha), (answers_list_objects _ _ Hs).
    unfold default_radioName. cbn [chosen_name].
    rewrite (default_radio_name_found fetched antennas id freq antennaId azimuth
               site_name antenna_name Hsite Hant).
    exists (default_name antenna_name azimuth freq site_name). reflexivity.
  - subst created. unfold create_radio_required.
    rewrite (create_radio_run st b h id freq antennaId azimuth _ _ _ _ _ _ _ _ _ Hst).
    destruct (objects_of _) as [antennas | e1].
    2: { exists [antennas_request b h freq]. split; [destruct e1; reflexivity|].
         intros r body [<- | []]. discriminate. }
    destruct (objects_of _) as [fetched | e2].
    2: { exists [antennas_request b h freq; get_request b "sites" h].
         split; [destruct e2; reflexivity|].
         intros r body [<- | [<- | []]]; discriminate. }
    destruct (chosen_name _ _ _ _ _ _ _) as [name | e3].
    2: { exists [antennas_request b h freq; get_request b "sites" h].
         split; [reflexivity|].
         intros r body [<- | [<- | []]]; discriminate. }
    eexists. split; [reflexivity|].
    intros r body [<- | [<- | [<- | []]]]; try discriminate.
    intros E. exists name. cbn in E. now inversion E.
  - subst created. unfold create_radio_required.
    rewrite (create_radio_run st b h id freq antennaId azimuth _ _ _ _ _ _ _ _ _ Hst).
    destruct (objects_of _) as [antennas | e1].
    2: { intros v E; destruct e1; discriminate. }
    destruct (objects_of _) as [fetched | e2].
    2: { intros v E; destruct e2; discriminate. }
    destruct (chosen_name _ _ _ _ _ _ _) as [name | e3].
    2: { intros v E; discriminate. }
    intros v _. eexists. exists name. cbn [snd sent log].
    split; [ apply in_or_app; right; right; right; left; reflexivity | ].
    split; reflexivity.
Qed.

(** Both methods at the required arguments alone: the PATCH of
    [update_radio], and the POST of [create_radio] for antenna "a7" at site
    "s1", both found. *)
Lemma default_radio_body_witness :
  map json
    (log (snd (update_radio_required "s1" (NFloat "5.8") "a7" (NInt 120)
                 (demo [objects [hpa90]; objects [denver]; ok_json VNone]))))
  = [Some (documented_body "a7" "No Name" (NInt 120) (NFloat "5.8"))] /\
  exists name,
    map (fun r => (method r, json r))
      (log (snd (create_radio_required "s1" (NFloat "5.8") "a7" (NInt 120)
                   (demo [objects [hpa90]; objects [denver]; ok_json VNone]))))
    = [(GET, None); (GET, None);
       (POST, Some (documented_body "a7" name (NInt 120) (NFloat "5.8")))].
Proof.
  destruct (default_radio_body
              (demo [objects [hpa90]; objects [denver]; ok_json VNone])
              the_base_endpoint (bearer (VStr "t0k3n")) "s1" (NFloat "5.8") "a7"
              (NInt 120) (conj eq_refl eq_refl)) as (U & C & _).
  split.
  - rewrite U. reflexivity.
  - destruct (C [denver] [hpa90] "denver" "HPA-90") as [name E].
    + eexists; split; [eexists; repeat split; reflexivity | reflexivity].
    + eexists; split; [eexists; repeat split; reflexivity | reflexivity].
    + now apply entry_here.
    + now apply entry_here.
    + exists name. rewrite E. reflexivity.
Defined.

(** C1. Two methods break the rule that a failed request surfaces as a
    [RuntimeError] carrying the method's own prefix.  On a constructed client
    whose [sites] snapshot is a list, a 404 on [get_site_radios] makes the
    handler subscript that list with the site id, and [TypeError] escapes;
    a 404 on [terminate_subscription] is reported with the prefix of
    [renew_subscriptions]. *)
Theorem error_wrapping_defects :
  fst (get_site_radios "s1"
         (demo [not_found "https://internal.cnheat.cambiumnetworks.com/api/v1/radios/s1"]))
  = Raise (TypeError "list indices must be integers or slices, not str") /\
  fst (terminate_subscription "s1"
         (demo [not_found "https://internal.cnheat.cambiumnetworks.com/api/v1/subscription/s1/terminate"]))
  = Raise (RuntimeError
             "Failed to renew subscription: 404 Client Error: Not Found for url: https://internal.cnheat.cambiumnetworks.com/api/v1/subscription/s1/terminate") /\
  error_prefix (TerminateSubscription "s1") = error_prefix (RenewSubscriptions "s1").
Proof. repeat split; vm_compute; reflexivity. Qed.

(** ** Construction *)

Lemma construct_ok (cid sec : string) (server : Server) (st0 : state) :
  construct cid sec server = (Ok tt, st0) ->
  exists tok s p u,
    let r0 := auth_request cid sec in
    let h := bearer tok in
    let r1 := get_request the_base_endpoint "sites" h in
    let r2 := get_request the_base_endpoint "predictions" h in
    let r3 := get_request the_base_endpoint "users" h in
    token_of (server [r0]) = Ok tok /\
    objects_of (server [r0; r1]) = Ok s /\
    objects_of (server [r0; r1; r2]) = Ok p /\
    objects_of (server [r0; r1; r2; r3]) = Ok u /\
    st0 = mkState (set_users u (set_predictions p (set_sites s
                     (authenticated cid sec tok))))
            server [r0; r1; r2; r3].
Proof.
  rewrite construct_run.
  destruct (token_of _) as [tok | e0] eqn:E0; [ | destruct e0; discriminate].
  cbn zeta.
  destruct (objects_of _) as [s | e1] eqn:E1; [ | destruct e1; discriminate].
  destruct (objects_of (server [_; _; _])) as [p | e2] eqn:E2;
    [ | destruct e2; discriminate].
  destruct (objects_of (server [_; _; _; _])) as [u | e3] eqn:E3;
    [ | destruct e3; discriminate].
  intros E. inversion E. exists tok, s, p, u. cbn zeta. repeat split; auto.
Qed.

(** C5. Construction authenticates first; when that fails it raises the
    authentication error having sent nothing else.  Once authenticated it
    fetches sites, predictions and users, in this order; a fetch that fails
    aborts it; when the three are answered with lists it returns, having sent
    exactly four requests, and the snapshots are the three lists. *)
Theorem construction_is_eager (cid sec : string) (server : Server) :
  let r0 := auth_request cid sec in
  (forall k msg, reply (server [r0]) = Raise (RequestException k msg) ->
     fst (construct cid sec server)
     = Raise (RuntimeError ("Authentication failed: " ++ msg)) /\
     log (snd (construct cid sec server)) = [r0]) /\
  (forall tok, token_of (server [r0]) = Ok tok ->
     let h := bearer tok in
     let r1 := get_request the_base_endpoint "sites" h in
     let r2 := get_request the_base_endpoint "predictions" h in
     let r3 := get_request the_base_endpoint "users" h in
     ((exists e, objects_of (server [r0; r1]) = Raise e) \/
      (exists e, objects_of (server [r0; r1; r2]) = Raise e) \/
      (exists e, objects_of (server [r0; r1; r2; r3]) = Raise e) ->
      exists e, fst (construct cid sec server) = Raise e) /\
     (forall s p u,
        answers_list (server [r0; r1]) s ->
        answers_list (server [r0; r1; r2]) p ->
        answers_list (server [r0; r1; r2; r3]) u ->
        exists st, construct cid sec server = (Ok tt, st) /\
                   log st = [r0; r1; r2; r3] /\
                   sites (self st) = Some (VList s) /\
                   predictions (self st) = Some (VList p) /\
                   users (self st) = Some (VList u))).
Proof.
  intros r0. split.
  - intros k msg E. rewrite construct_run. fold r0.
    unfold token_of. rewrite E. cbn. auto.
  - intros tok Htok h r1 r2 r3. rewrite construct_run. fold r0.
    rewrite Htok. cbn zeta. fold h r1 r2 r3. split.
    + intros Hfail.
      destruct (objects_of (server [r0; r1])) as [s | e1].
      2: { destruct e1; eexists; reflexivity. }
      destruct (objects_of (server [r0; r1; r2])) as [p | e2].
      2: { destruct e2; eexists; reflexivity. }
      destruct (objects_of (server [r0; r1; r2; r3])) as [u | e3].
      2: { destruct e3; eexists; reflexivity. }
      destruct Hfail as [[e E] | [[e E] | [e E]]]; discriminate.
    + intros s p u Hs Hp Hu.
      rewrite (answers_list_objects _ _ Hs), (answers_list_objects _ _ Hp),
        (answers_list_objects _ _ Hu).
      eexists. split; [reflexivity|]. cbn. auto.
Qed.

Lemma construction_is_eager_witness :
  exists st,
    construct "id" "secret"
      (scripted [token_reply; objects [denver]; objects []; objects []])
    = (Ok tt, st) /\
    length (log st) = 4%nat /\
    sites (self st) = Some (VList [denver]).
Proof.
  assert (T : token_of (scripted [token_reply; objects [denver]; objects []; objects []]
                          [auth_request "id" "secret"]) = Ok (VStr "t0k3n"))
    by (vm_compute; reflexivity).
  destruct (proj2 (proj2 (construction_is_eager "id" "secret"
                     (scripted [token_reply; objects [denver]; objects []; objects []]))
                   (VStr "t0k3n") T) [denver] [] [])
    as (st & E & L & S & _).
  - eexists; split; [eexists; repeat split; vm_compute; reflexivity | reflexivity].
  - eexists; split; [eexists; repeat split; vm_compute; reflexivity | reflexivity].
  - eexists; split; [eexists; repeat split; vm_compute; reflexivity | reflexivity].
  - exists st. rewrite L. auto.
Defined.

(** C7, as stated, fails on the first request of every client: the
    authentication request carries no [Authorization] header, and its body
    is the form-encoded credentials, not JSON. *)
Lemma authentication_request_is_bare :
  let made := construct "id" "secret"
                (scripted [token_reply; objects [denver]; objects []; objects []]) in
  fst made = Ok tt /\
  exists r, In r (log (snd made)) /\
            req_headers r = None /\
            data r = Some [("client_id", VStr "id"); ("client_secret", VStr "secret")] /\
            json r = None.
Proof.
  split; [vm_compute; reflexivity|].
  exists (auth_request "id" "secret").
  split; [vm_compute; left; reflexivity|]. repeat split.
Qed.

Lemma ready_constructed (cid sec : string) (tok s p u : pyval) :
  ready the_base_endpoint (bearer tok)
    (set_users u (set_predictions p (set_sites s (authenticated cid sec tok)))).
Proof. split; reflexivity. Qed.

(** C7, amended. On a constructed client every request after the
    authentication request, those of construction and those of any later
    calls, carries [Authorization: Bearer <token>] with the token obtained at
    construction, and its body, if any, is JSON; and a list-returning method
    returns the content of the ['objects'] field of the decoded response. *)
Theorem bearer_after_authentication (cid sec : string) (server : Server)
    (st0 : state) :
  construct cid sec server = (Ok tt, st0) ->
  exists tok,
    token_of (server [auth_request cid sec]) = Ok tok /\
    token (self st0) = Some tok /\
    (exists rest, log st0 = auth_request cid sec :: rest /\
                  Forall (greets (bearer tok)) rest) /\
    (forall calls, exists new,
        log (run calls st0) = (log st0 ++ new)%list /\
        Forall (greets (bearer tok)) new) /\
    (forall calls c d v,
        list_returning c = true ->
        answers_object (answered (snd (invoke c (run calls st0)))) d ->
        assoc "objects" d = Some v ->
        fst (invoke c (run calls st0)) = Ok v).
Proof.
  intros E. destruct (construct_ok _ _ _ _ E) as (tok & s & p & u & H).
  cbn zeta in H. destruct H as (Htok & _ & _ & _ & Hst0).
  exists tok. split; [exact Htok|].
  assert (Hready : ready the_base_endpoint (bearer tok) (self st0))
    by (rewrite Hst0; apply ready_constructed).
  split; [now rewrite Hst0|].
  split; [ | split ].
  - rewrite Hst0. eexists. split; [reflexivity|]. repeat constructor.
  - intros calls.
    destruct (run_sends _ _ calls (invoke_polite the_base_endpoint (bearer tok))
                st0 Hready) as (_ & _ & new & Hl & Hnew).
    now exists new.
  - intros calls c d v Hc Ha Hv.
    destruct (run_sends _ _ calls (invoke_polite the_base_endpoint (bearer tok))
                st0 Hready) as (Hs & _).
    rewrite (list_call_object c _ the_base_endpoint (bearer tok) d); auto.
    + now rewrite Hv.
    + now rewrite Hs.
Qed.

Lemma bearer_after_authentication_witness :
  exists tok,
    token_of (scripted [token_reply; objects [denver]; objects []; objects []]
                [auth_request "id" "secret"]) = Ok tok /\
    tok = VStr "t0k3n".
Proof.
  assert (E : construct "id" "secret"
                (scripted [token_reply; objects [denver]; objects []; objects []])
              = (Ok tt,
                 snd (construct "id" "secret"
                        (scripted [token_reply; objects [denver]; objects [];
                                   objects []]))))
    by (vm_compute; reflexivity).
  destruct (bearer_after_authentication _ _ _ _ E) as (tok & Htok & _).
  exists tok. split; [exact Htok|].
  vm_compute in Htok. now inversion Htok.
Defined.

(** C8, as stated, fails in its last clause: a 200 whose body is not JSON
    makes [response.json()] raise, the handler catches it, and the
    authentication error is raised although the network call returned and
    the status is a success. *)
Lemma undecodable_token_reply_is_an_authentication_error :
  let page := mkResponse 200 "OK"
                "https://internal.cnheat.cambiumnetworks.com/api/v1/oauth/token"
                (NotJson "Expecting value: line 1 column 1 (char 0)") in
  let server := scripted [Returns page] in
  server [auth_request "id" "secret"] = Returns page /\
  is_2xx (status_code page) = true /\
  fst (_authenticate (mkState (unauthenticated "id" "secret") server []))
  = Raise (RuntimeError
             "Authentication failed: Expecting value: line 1 column 1 (char 0)") /\
  fst (construct "id" "secret" server)
  = Raise (RuntimeError
             "Authentication failed: Expecting value: line 1 column 1 (char 0)").
Proof. repeat split; vm_compute; reflexivity. Qed.

(** C8, amended. When the authentication POST is answered by a response
    that [raise_for_status] lets through and that decodes to an object
    without ['access_token'], [_authenticate] returns [None] without raising,
    construction goes on to fetch the sites, and every request after the
    authentication request, in construction and in any later call, carries
    [Authorization: Bearer None].  [_authenticate] raises the authentication
    error only when the network call raises, the status is an error status,
    or the body is not JSON. *)
Theorem missing_token_is_none (cid sec : string) (server : Server) :
  let r0 := auth_request cid sec in
  let start := mkState (unauthenticated cid sec) server [] in
  let none := [("Authorization", "Bearer None")] in
  (forall d, answers_object (server [r0]) d -> assoc "access_token" d = None ->
     fst (_authenticate start) = Ok VNone /\
     (exists rest,
        log (snd (construct cid sec server))
        = r0 :: get_request the_base_endpoint "sites" none :: rest /\
        Forall (greets none) rest) /\
     (forall st0, construct cid sec server = (Ok tt, st0) ->
        token (self st0) = Some VNone /\
        headers (self st0) = Some none /\
        forall calls, exists new,
          log (run calls st0) = (log st0 ++ new)%list /\
          Forall (greets none) new)) /\
  (forall msg, fst (_authenticate start) = Raise (RuntimeError msg) ->
     (exists e, server [r0] = Fails e) \/
     (exists r, server [r0] = Returns r /\
                (is_error_status (status_code r) = true \/
                 exists err, content r = NotJson err))).
Proof.
  intros r0 start none. split.
  - intros d Hd Hnone.
    assert (Htok : token_of (server [r0]) = Ok VNone).
    { unfold token_of. rewrite (answers_object_reply _ _ Hd). cbn.
      now rewrite Hnone. }
    split; [ | split ].
    + subst start.
      rewrite (authenticate_run (mkState (unauthenticated cid sec) server [])
                 cid sec eq_refl eq_refl eq_refl).
      cbn [fst log app net]. fold r0. now rewrite Htok.
    + rewrite construct_run. fold r0. rewrite Htok. cbn zeta.
      change (bearer VNone) with none.
      destruct (objects_of _) as [s | e1].
      2: { exists []. destruct e1; cbn; auto. }
      destruct (objects_of (server [_; _; _])) as [p | e2].
      2: { eexists. destruct e2; cbn; (split; [reflexivity|]);
           repeat constructor. }
      destruct (objects_of (server [_; _; _; _])) as [u | e3].
      2: { eexists. destruct e3; cbn; (split; [reflexivity|]);
           repeat constructor. }
      eexists. cbn. split; [reflexivity|]. repeat constructor.
    + intros st0 E.
      destruct (construct_ok _ _ _ _ E) as (tok & s & p & u & H).
      cbn zeta in H. destruct H as (Htok' & _ & _ & _ & Hst0).
      fold r0 in Htok'. rewrite Htok in Htok'. inversion Htok'. subst tok.
      assert (Hready : ready the_base_endpoint none (self st0))
        by (rewrite Hst0; apply (ready_constructed cid sec VNone)).
      split; [now rewrite Hst0|]. split; [now rewrite Hst0|].
      intros calls.
      destruct (run_sends _ _ calls (invoke_polite the_base_endpoint none)
                  st0 Hready) as (_ & _ & new & Hl & Hnew).
      now exists new.
  - intros msg. subst start.
    rewrite (authenticate_run (mkState (unauthenticated cid sec) server [])
               cid sec eq_refl eq_refl eq_refl).
    cbn [fst log app net]. fold r0.
    unfold token_of, reply, is_error_status.
    destruct (server [r0]) as [e | r]; [intros _; left; now exists e|].
    intros E. right. exists r. split; [reflexivity|].
    destruct (is_client_error _); [now left|].
    destruct (is_server_error _); [now left|].
    destruct (content r) as [body | err]; [ | right; now exists err].
    cbn in E. unfold dict_get in E.
    destruct body; try discriminate. destruct (assoc _ _); discriminate.
Qed.

Lemma missing_token_is_none_witness :
  fst (_authenticate
         (mkState (unauthenticated "id" "secret")
            (scripted [ok_json (VDict [("token_type", VStr "bearer")])]) []))
  = Ok VNone.
Proof.
  apply (proj1 (missing_token_is_none "id" "secret"
                  (scripted [ok_json (VDict [("token_type", VStr "bearer")])]))
           [("token_type", VStr "bearer")]).
  - eexists; repeat split; vm_compute; reflexivity.
  - reflexivity.
Defined.

(** * Further properties of the methods *)

Lemma reply_objects_raise (o : outcome) (e : exn) :
  reply o = Raise e -> objects_of o = Raise e.
Proof. intros E. unfold objects_of. now rewrite E. Qed.

Lemma not_dict_get (v : pyval) (key : string) (default : pyval) :
  is_dict v = false -> dict_get v key default = Raise (AttributeError "get").
Proof. destruct v; try reflexivity; discriminate. Qed.

(** X1. A single-request method other than [get_site_radios] whose request
    fails (transport error, error status, or body that is not JSON) sends
    that one request, nothing after it, and raises [RuntimeError] with the
    method's literal prefix followed by [str(e)]. *)
Theorem failed_request_is_wrapped (c : call) (st : state) (b : string)
    (h : list (string * string)) (r : request) (k : req_exn) (msg : string) :
  ready b h (self st) ->
  request_of b h c = Some r ->
  (forall i, c <> GetSiteRadios i) ->
  reply (net st (log st ++ [r])%list) = Raise (RequestException k msg) ->
  invoke c st = (Raise (RuntimeError (error_prefix c ++ msg)), sent st [r]).
Proof.
  intros Hst Hr Hc E.
  rewrite (invoke_single c st b h r Hst Hr).
  unfold wrapped. rewrite E. f_equal.
  destruct c; try reflexivity. now elim (Hc site_id).
Qed.

Lemma failed_request_is_wrapped_witness :
  fst (delete_radio "r9"
         (demo [not_found "https://internal.cnheat.cambiumnetworks.com/api/v1/radio/r9"]))
  = Raise (RuntimeError
             "Failed to delete radio: 404 Client Error: Not Found for url: https://internal.cnheat.cambiumnetworks.com/api/v1/radio/r9").
Proof.
  change (delete_radio "r9") with (invoke (DeleteRadio "r9")).
  rewrite (failed_request_is_wrapped (DeleteRadio "r9")
             (demo [not_found "https://internal.cnheat.cambiumnetworks.com/api/v1/radio/r9"])
             the_base_endpoint (bearer (VStr "t0k3n"))
             (mkRequest DELETE (the_base_endpoint ++ "radio/r9")
                (Some (bearer (VStr "t0k3n"))) None None None)
             HTTPError
             "404 Client Error: Not Found for url: https://internal.cnheat.cambiumnetworks.com/api/v1/radio/r9").
  - reflexivity.
  - split; reflexivity.
  - reflexivity.
  - discriminate.
  - vm_compute; reflexivity.
Defined.

(** X2. A single-request method that does not narrow to ['objects'] returns
    the decoded answer as it is, whatever JSON value it is, after exactly
    one request. *)
Theorem decoded_answer_is_returned (c : call) (st : state) (b : string)
    (h : list (string * string)) (r : request) (v : pyval) :
  ready b h (self st) ->
  request_of b h c = Some r ->
  list_returning c = false ->
  reply (net st (log st ++ [r])%list) = Ok v ->
  invoke c st = (Ok v, sent st [r]).
Proof.
  intros Hst Hr Hl E.
  rewrite (invoke_single c st b h r Hst Hr).
  unfold wrapped, narrow. now rewrite E, Hl.
Qed.

Lemma decoded_answer_is_returned_witness :
  fst (get_credits (demo [ok_json (VList [VInt 3; VNone])])) = Ok (VList [VInt 3; VNone]).
Proof.
  change get_credits with (invoke GetCredits).
  rewrite (decoded_answer_is_returned GetCredits
             (demo [ok_json (VList [VInt 3; VNone])]) the_base_endpoint
             (bearer (VStr "t0k3n")) (get_request the_base_endpoint "credits"
                                        (bearer (VStr "t0k3n")))
             (VList [VInt 3; VNone])).
  - reflexivity.
  - split; reflexivity.
  - reflexivity.
  - reflexivity.
  - vm_compute; reflexivity.
Defined.

(** X3. A list-returning method whose answer decodes to JSON that is not an
    object (a list, a string, a number, null) raises [AttributeError]: the
    value has no [get], and the handler catches request errors only. *)
Theorem non_object_answer_is_attribute_error (c : call) (st : state)
    (b : string) (h : list (string * string)) (r : request) (v : pyval) :
  ready b h (self st) ->
  request_of b h c = Some r ->
  list_returning c = true ->
  reply (net st (log st ++ [r])%list) = Ok v ->
  is_dict v = false ->
  invoke c st = (Raise (AttributeError "get"), sent st [r]).
Proof.
  intros Hst Hr Hl E Hv.
  rewrite (invoke_single c st b h r Hst Hr).
  unfold wrapped, narrow. rewrite E, Hl. now rewrite not_dict_get.
Qed.

Lemma non_object_answer_is_attribute_error_witness :
  fst (get_sites (demo [ok_json (VList [denver])])) = Raise (AttributeError "get").
Proof.
  change get_sites with (invoke GetSites).
  rewrite (non_object_answer_is_attribute_error GetSites
             (demo [ok_json (VList [denver])]) the_base_endpoint
             (bearer (VStr "t0k3n"))
             (get_request the_base_endpoint "sites" (bearer (VStr "t0k3n")))
             (VList [denver])).
  - reflexivity.
  - split; reflexivity.
  - reflexivity.
  - reflexivity.
  - vm_compute; reflexivity.
  - reflexivity.
Defined.

(** X4. When the authentication answer decodes to JSON that is not an
    object, construction ends in [AttributeError] (not in the
    authentication error) after the authentication request alone. *)
Theorem non_object_token_reply_aborts (cid sec : string) (server : Server)
    (v : pyval) :
  reply (server [auth_request cid sec]) = Ok v ->
  is_dict v = false ->
  fst (construct cid sec server) = Raise (AttributeError "get") /\
  log (snd (construct cid sec server)) = [auth_request cid sec].
Proof.
  intros E Hv. rewrite construct_run.
  unfold token_of. rewrite E. cbn [rbind]. rewrite not_dict_get by exact Hv.
  split; reflexivity.
Qed.

Lemma non_object_token_reply_aborts_witness :
  fst (construct "id" "secret" (scripted [ok_json (VStr "t0k3n")]))
  = Raise (AttributeError "get").
Proof.
  apply (non_object_token_reply_aborts "id" "secret"
           (scripted [ok_json (VStr "t0k3n")]) (VStr "t0k3n")).
  - vm_compute; reflexivity.
  - reflexivity.
Defined.

(** X5. On a client whose [sites] snapshot is a list, a failed request of
    [get_site_radios] never surfaces as [RuntimeError]: whatever the site id
    and the failure, the handler raises [TypeError]. *)
Theorem get_site_radios_list_snapshot (st : state) (b : string)
    (h : list (string * string)) (site_id : string) (snapshot : list pyval)
    (k : req_exn) (msg : string) :
  ready b h (self st) ->
  sites (self st) = Some (VList snapshot) ->
  reply (net st (log st ++ [get_request b ("radios/" ++ site_id) h])%list)
  = Raise (RequestException k msg) ->
  fst (get_site_radios site_id st)
  = Raise (TypeError "list indices must be integers or slices, not str").
Proof.
  intros Hst Hs E.
  change (get_site_radios site_id) with (invoke (GetSiteRadios site_id)).
  rewrite (invoke_single (GetSiteRadios site_id) st b h
             (get_request b ("radios/" ++ site_id) h) Hst eq_refl).
  cbn [fst].
  unfold wrapped. rewrite E. cbn [on_error]. now rewrite Hs.
Qed.

Lemma get_site_radios_list_snapshot_witness :
  fst (get_site_radios "nowhere" (demo []))
  = Raise (TypeError "list indices must be integers or slices, not str").
Proof.
  apply (get_site_radios_list_snapshot (demo []) the_base_endpoint
           (bearer (VStr "t0k3n")) "nowhere" [denver] ConnectionError
           "Connection refused").
  - split; reflexivity.
  - reflexivity.
  - vm_compute; reflexivity.
Defined.

(** X6. On a client whose [sites] snapshot is an object keyed by site id,
    a failed request of [get_site_radios] for a site of the snapshot raises
    [RuntimeError] with the site's name in the message. *)
Theorem get_site_radios_keyed_snapshot (st : state) (b : string)
    (h : list (string * string)) (site_id : string)
    (snapshot site : list (string * pyval)) (name : string)
    (k : req_exn) (msg : string) :
  ready b h (self st) ->
  sites (self st) = Some (VDict snapshot) ->
  assoc site_id snapshot = Some (VDict site) ->
  assoc "name" site = Some (VStr name) ->
  reply (net st (log st ++ [get_request b ("radios/" ++ site_id) h])%list)
  = Raise (RequestException k msg) ->
  fst (get_site_radios site_id st)
  = Raise (RuntimeError ("Failed to fetch " ++ name ++ " radios: " ++ msg)).
Proof.
  intros Hst Hs Hsite Hname E.
  change (get_site_radios site_id) with (invoke (GetSiteRadios site_id)).
  rewrite (invoke_single (GetSiteRadios site_id) st b h
             (get_request b ("radios/" ++ site_id) h) Hst eq_refl).
  cbn [fst].
  unfold wrapped. rewrite E. cbn [on_error]. rewrite Hs.
  cbn [getitem rbind]. rewrite Hsite. cbn [getitem rbind]. now rewrite Hname.
Qed.

Lemma get_site_radios_keyed_snapshot_witness :
  fst (get_site_radios "s1" (mkState keyed_client (scripted []) []))
  = Raise (RuntimeError "Failed to fetch denver radios: Connection refused").
Proof.
  apply (get_site_radios_keyed_snapshot (mkState keyed_client (scripted []) [])
           the_base_endpoint (bearer (VStr "t0k3n")) "s1"
           [("s1", VDict [("name", VStr "denver")])] [("name", VStr "denver")]
           "denver" ConnectionError "Connection refused").
  - split; reflexivity.
  - reflexivity.
  - reflexivity.
  - reflexivity.
  - vm_compute; reflexivity.
Defined.

(** X7. No value serves both uses of the sites data: if the loop of
    [create_radio] finds a name in it, then subscripting it with a [str], as
    the handler of [get_site_radios] does, raises. *)
Theorem no_sites_shape_serves_both (v : pyval) (items : list pyval)
    (wanted field key : string) (name : pyval) :
  iterate v = Ok items ->
  lookup_loop items wanted field = Ok (Some name) ->
  exists e, getitem v key = Raise e.
Proof.
  intros Hi Hl. destruct v; cbn in *; try discriminate; try (eexists; reflexivity).
  inversion Hi; subst items. destruct d as [| [k0 x] d]; cbn in Hl; discriminate.
Qed.

Lemma no_sites_shape_serves_both_witness :
  exists e, getitem (VList [denver]) "s1" = Raise e.
Proof.
  apply (no_sites_shape_serves_both (VList [denver]) [denver] "s1" "name" "s1"
           (VStr "denver")); reflexivity.
Defined.

(** X8. A failure inside [create_radio] carries the prefix of the step that
    failed, and stops the call there: a failed GET antennas is reported as
    "Failed to fetch antennas", with no GET sites and no POST; a failed GET
    sites as "Failed to fetch sites", with no POST; only a failed POST as
    "Failed to create radio". *)
Theorem create_radio_failure_prefixes (st : state) (b : string)
    (h : list (string * string)) (site_id : string) (freq : pynum)
    (antennaId : string) (azimuth agl : pynum) (radioName : option string)
    (fol ar radius gain tilt clearance power : pynum) (k : req_exn)
    (msg : string) :
  ready b h (self st) ->
  let r1 := antennas_request b h freq in
  let r2 := get_request b "sites" h in
  let attempt := create_radio site_id freq antennaId azimuth agl radioName fol
                   ar radius gain tilt clearance power st in
  (reply (net st (log st ++ [r1])%list) = Raise (RequestException k msg) ->
   attempt = (Raise (RuntimeError ("Failed to fetch antennas: " ++ msg)),
              sent st [r1])) /\
  (forall antennas,
     objects_of (net st (log st ++ [r1])%list) = Ok antennas ->
     reply (net st (log st ++ [r1; r2])%list) = Raise (RequestException k msg) ->
     attempt = (Raise (RuntimeError ("Failed to fetch sites: " ++ msg)),
                sent st [r1; r2])) /\
  (forall antennas fetched name,
     objects_of (net st (log st ++ [r1])%list) = Ok antennas ->
     objects_of (net st (log st ++ [r1; r2])%list) = Ok fetched ->
     chosen_name radioName fetched antennas site_id freq antennaId azimuth
     = Ok name ->
     let r3 := radio_post b h site_id
                 (radio_data antennaId name azimuth fol freq agl ar radius gain
                    tilt clearance power) in
     reply (net st (log st ++ [r1; r2; r3])%list)
     = Raise (RequestException k msg) ->
     attempt = (Raise (RuntimeError ("Failed to create radio: " ++ msg)),
                sent st [r1; r2; r3])).
Proof.
  intros Hst r1 r2 attempt. subst attempt.
  rewrite (create_radio_run st b h site_id freq antennaId azimuth agl radioName
             fol ar radius gain tilt clearance power Hst).
  fold r1 r2. split; [ | split ].
  - intros E. now rewrite (reply_objects_raise _ _ E).
  - intros antennas Ha E. rewrite Ha. now rewrite (reply_objects_raise _ _ E).
  - intros antennas fetched name Ha Hf Hn r3 E. rewrite Ha, Hf, Hn. cbn zeta.
    fold r3. unfold wrapped. now rewrite E.
Qed.

Lemma create_radio_failure_prefixes_witness :
  create_radio "s1" (NFloat "5.8") "a7" (NInt 120) (NInt 20) None (NInt (-1))
    (NInt 0) (NInt 12875) (NFloat "18.5") (NInt (-2)) (NInt 30) (NFloat "27.2")
    (demo [])
  = (Raise (RuntimeError "Failed to fetch antennas: Connection refused"),
     sent (demo []) [antennas_request the_base_endpoint (bearer (VStr "t0k3n"))
                       (NFloat "5.8")]).
Proof.
  apply (proj1 (create_radio_failure_prefixes (demo []) the_base_endpoint
                  (bearer (VStr "t0k3n")) "s1" (NFloat "5.8") "a7" (NInt 120)
                  (NInt 20) None (NInt (-1)) (NInt 0) (NInt 12875)
                  (NFloat "18.5") (NInt (-2)) (NInt 30) (NFloat "27.2")
                  ConnectionError "Connection refused" (conj eq_refl eq_refl))).
  vm_compute; reflexivity.
Defined.



(** X10. Which local the failed default naming names: the f-string reads
    [antenna_name] first, so an absent antenna id is reported as
    [antenna_name] whether or not the site is found; [site_name] is
    reported only when the antenna is found and the site is not. *)
Theorem unbound_local_is_named (st : state) (b : string)
    (h : list (string * string)) (site_id : string) (freq : pynum)
    (antennaId : string) (azimuth agl fol ar radius gain tilt clearance power : pynum)
    (fetched antennas : list pyval) :
  ready b h (self st) ->
  let r1 := antennas_request b h freq in
  let r2 := get_request b "sites" h in
  let attempt := create_radio site_id freq antennaId azimuth agl None fol ar
                   radius gain tilt clearance power st in
  answers_list (net st (log st ++ [r1])%list) antennas ->
  answers_list (net st (log st ++ [r1; r2])%list) fetched ->
  Forall (entry "name") fetched ->
  Forall (entry "antenna") antennas ->
  (absent antennaId antennas ->
   fst attempt = Raise (UnboundLocalError "antenna_name")) /\
  (forall antenna_name,
     first_entry antennaId "antenna" antennas (VStr antenna_name) ->
     absent site_id fetched ->
     fst attempt = Raise (UnboundLocalError "site_name")).
Proof.
  intros Hst r1 r2 attempt Ha Hs Hf Hant. subst attempt.
  rewrite (create_radio_run st b h site_id freq antennaId azimuth agl None fol
             ar radius gain tilt clearance power Hst).
  fold r1 r2.
  rewrite (answers_list_objects _ _ Ha), (answers_list_objects _ _ Hs).
  cbn [chosen_name]. unfold default_radio_name. cbn [iterate rbind].
  split.
  - intros Habs.
    destruct (entries_loop site_id "name" fetched Hf) as [Es | [sn Es]];
      rewrite Es; cbn [rbind];
      rewrite (absent_not_found _ _ _ Hant Habs); reflexivity.
  - intros antenna_name Hfound Habs.
    rewrite (absent_not_found _ _ _ Hf Habs). cbn [rbind].
    rewrite (first_entry_found _ _ _ _ Hfound). reflexivity.
Qed.

Lemma unbound_local_is_named_witness :
  fst (create_radio "s9" (NFloat "5.8") "a7" (NInt 120) (NInt 20) None
         (NInt (-1)) (NInt 0) (NInt 12875) (NFloat "18.5") (NInt (-2))
         (NInt 30) (NFloat "27.2") (demo [objects [hpa90]; objects [denver]]))
  = Raise (UnboundLocalError "site_name").
Proof.
  refine (proj2
    (unbound_local_is_named (demo [objects [hpa90]; objects [denver]])
       the_base_endpoint (bearer (VStr "t0k3n")) "s9" (NFloat "5.8") "a7"
       (NInt 120) (NInt 20) (NInt (-1)) (NInt 0) (NInt 12875) (NFloat "18.5")
       (NInt (-2)) (NInt 30) (NFloat "27.2") [denver] [hpa90]
       _ _ _ _ _) "HPA-90" _ _).
  - split; reflexivity.
  - eexists; split; [eexists; repeat split; vm_compute; reflexivity | reflexivity].
  - eexists; split; [eexists; repeat split; vm_compute; reflexivity | reflexivity].
  - repeat constructor. exists [("id", VStr "s1"); ("name", VStr "denver")],
      (VStr "s1"), "denver". repeat split; reflexivity.
  - repeat constructor. exists [("id", VStr "a7"); ("antenna", VStr "HPA-90")],
      (VStr "a7"), "HPA-90". repeat split; reflexivity.
  - now apply entry_here.
  - repeat constructor. intros i E. cbn in E. inversion E. reflexivity.
Defined.

Lemma lookup_loop_skips (wanted field : string) (before rest : list pyval) :
  Forall (entry field) before -> absent wanted before ->
  lookup_loop (before ++ rest) wanted field = lookup_loop rest wanted field.
Proof.
  unfold absent.
  induction 1 as [| v more (d & i & n & -> & Hid & Hname) _ IH]; intros Ha;
    [reflexivity|].
  inversion Ha as [| ? ? Hv Hrest]; subst. cbn.
  rewrite Hid. rewrite (Hv i) by (cbn; now rewrite Hid). now apply IH.
Qed.

(** X11. The site loop subscripts ['id'] on every entry it visits: when the
    fetched sites hold an object without ['id'] before any entry with the
    wanted id, [create_radio] without a name raises [KeyError('id')] after
    the two GETs, whatever the antennas are. *)
Theorem entry_without_id_is_key_error (st : state) (b : string)
    (h : list (string * string)) (site_id : string) (freq : pynum)
    (antennaId : string) (azimuth agl fol ar radius gain tilt clearance power : pynum)
    (antennas : pyval) (before after : list pyval) (d : list (string * pyval)) :
  ready b h (self st) ->
  let r1 := antennas_request b h freq in
  let r2 := get_request b "sites" h in
  objects_of (net st (log st ++ [r1])%list) = Ok antennas ->
  answers_list (net st (log st ++ [r1; r2])%list) (before ++ VDict d :: after) ->
  Forall (entry "name") before ->
  absent site_id before ->
  assoc "id" d = None ->
  create_radio site_id freq antennaId azimuth agl None fol ar radius gain tilt
    clearance power st
  = (Raise (KeyError "id"), sent st [r1; r2]).
Proof.
  intros Hst r1 r2 Ha Hs Hbefore Habs Hid.
  rewrite (create_radio_run st b h site_id freq antennaId azimuth agl None fol
             ar radius gain tilt clearance power Hst).
  fold r1 r2. rewrite Ha, (answers_list_objects _ _ Hs).
  cbn [chosen_name]. unfold default_radio_name. cbn [iterate rbind].
  rewrite (lookup_loop_skips _ _ _ _ Hbefore Habs).
  cbn [lookup_loop getitem]. now rewrite Hid.
Qed.

Lemma entry_without_id_is_key_error_witness :
  fst (create_radio "s1" (NFloat "5.8") "a7" (NInt 120) (NInt 20) None
         (NInt (-1)) (NInt 0) (NInt 12875) (NFloat "18.5") (NInt (-2))
         (NInt 30) (NFloat "27.2")
         (demo [objects [hpa90];
                objects [VDict [("name", VStr "draft")]; denver]]))
  = Raise (KeyError "id").
Proof.
  rewrite (entry_without_id_is_key_error
             (demo [objects [hpa90];
                    objects [VDict [("name", VStr "draft")]; denver]])
             the_base_endpoint (bearer (VStr "t0k3n")) "s1" (NFloat "5.8") "a7"
             (NInt 120) (NInt 20) (NInt (-1)) (NInt 0) (NInt 12875)
             (NFloat "18.5") (NInt (-2)) (NInt 30) (NFloat "27.2")
             (VList [hpa90]) [] [denver] [("name", VStr "draft")]).
  - reflexivity.
  - split; reflexivity.
  - vm_compute; reflexivity.
  - eexists; split; [eexists; repeat split; vm_compute; reflexivity | reflexivity].
  - constructor.
  - constructor.
  - reflexivity.
Defined.

(** X12. The fetching methods send one GET, with no body of any kind, and
    nothing else, whatever the outcome. *)
Theorem read_only_calls_send_one_get (c : call) (st : state) (b : string)
    (h : list (string * string)) :
  ready b h (self st) ->
  read_only c = true ->
  exists r, log (snd (invoke c st)) = (log st ++ [r])%list /\
            method r = GET /\ data r = None /\ json r = None.
Proof.
  intros Hst Hc.
  destruct c; try discriminate;
    (erewrite invoke_single; [ | exact Hst | reflexivity ]);
    eexists; (split; [reflexivity|]); repeat split.
Qed.

Lemma read_only_calls_send_one_get_witness :
  exists r, log (snd (get_radio "r1" (demo []))) = [r] /\ method r = GET.
Proof.
  destruct (read_only_calls_send_one_get (GetRadio "r1") (demo [])
              the_base_endpoint (bearer (VStr "t0k3n")) (conj eq_refl eq_refl)
              eq_refl) as (r & L & G & _).
  exists r. split; [exact L | exact G].
Defined.

Lemma prefix_app (b x : string) : String.prefix b (b ++ x) = true.
Proof.
  induction b as [| c b IH]; cbn; [now destruct x|].
  destruct (ascii_dec c c) as [_ | N]; [exact IH | now elim N].
Qed.

Ltac recall_base b Hme Hf :=
  destruct Hme as [? ?];
  match type of Hf with
  | base_endpoint _ = Some ?a => assert (a = b) by congruence; subst a
  | _ => idtac
  end.

(** On a constructed client every request goes to a URL under the base. *)
Lemma invoke_on_base (b : string) (h : list (string * string)) (c : call) :
  sends (ready b h) (on_base b) (invoke c).
Proof.
  destruct c; unfold_methods; try destruct radioName;
    repeat sends_step ltac:(recall_base b); apply prefix_app.
Qed.

(** X13. The client talks to one place: every request of a construction,
    however it ends, and every request of any later call on the constructed
    client goes to a URL that starts with the fixed base endpoint. *)
Theorem requests_stay_on_base_endpoint (cid sec : string) (server : Server) :
  Forall (on_base the_base_endpoint) (log (snd (construct cid sec server))) /\
  (forall st0 calls,
     construct cid sec server = (Ok tt, st0) ->
     Forall (on_base the_base_endpoint) (log (run calls st0))).
Proof.
  assert (Hinit : Forall (on_base the_base_endpoint)
                    (log (snd (construct cid sec server)))).
  { rewrite construct_run.
    destruct (token_of _) as [tok | e0].
    2: { destruct e0; cbn; repeat constructor. }
    cbn zeta.
    destruct (objects_of _) as [s | e1].
    2: { destruct e1; cbn; repeat constructor. }
    destruct (objects_of (server [_; _; _])) as [p | e2].
    2: { destruct e2; cbn; repeat constructor. }
    destruct (objects_of (server [_; _; _; _])) as [u | e3].
    2: { destruct e3; cbn; repeat constructor. }
    cbn; repeat constructor. }
  split; [exact Hinit|].
  intros st0 calls E. rewrite E in Hinit. cbn [snd] in Hinit.
  destruct (construct_ok _ _ _ _ E) as (tok & s & p & u & H).
  cbn zeta in H. destruct H as (_ & _ & _ & _ & Hst0).
  assert (Hready : ready the_base_endpoint (bearer tok) (self st0))
    by (rewrite Hst0; apply ready_constructed).
  destruct (run_sends _ _ calls (invoke_on_base the_base_endpoint (bearer tok))
              st0 Hready) as (_ & _ & new & Hl & Hnew).
  rewrite Hl. now apply Forall_app.
Qed.

Lemma requests_stay_on_base_endpoint_witness :
  Forall (on_base the_base_endpoint)
    (log (run [GetCredits; DeleteUser "a@b.c"]
            (snd (construct "id" "secret"
                    (scripted [token_reply; objects [denver]; objects [];
                               objects []]))))).
Proof.
  apply (proj2 (requests_stay_on_base_endpoint "id" "secret"
                  (scripted [token_reply; objects [denver]; objects []; objects []]))).
  vm_compute; reflexivity.
Defined.

(** X14. [rename_prediction] sends one PATCH to
    [prediction/{id}/rename] with the body [{"name": new_name}] and
    returns the decoded answer unchanged. *)
Theorem rename_prediction_wire (st : state) (b : string)
    (h : list (string * string)) (prediction_id new_name : string) :
  ready b h (self st) ->
  let r := mkRequest PATCH (b ++ "prediction/" ++ prediction_id ++ "/rename")
             (Some h) None None (Some (VDict [("name", VStr new_name)])) in
  log (snd (rename_prediction prediction_id new_name st)) = (log st ++ [r])%list /\
  forall v, reply (net st (log st ++ [r])%list) = Ok v ->
            fst (rename_prediction prediction_id new_name st) = Ok v.
Proof.
  intros Hst r.
  change (rename_prediction prediction_id new_name)
    with (invoke (RenamePrediction prediction_id new_name)).
  rewrite (invoke_single (RenamePrediction prediction_id new_name) st b h r Hst
             eq_refl).
  split; [reflexivity|]. intros v E. cbn [fst]. unfold wrapped. now rewrite E.
Qed.

Lemma rename_prediction_wire_witness :
  map (fun r => (method r, url r, json r))
    (log (snd (rename_prediction "p1" "Q3-Plan" (demo []))))
  = [(PATCH, the_base_endpoint ++ "prediction/p1/rename",
      Some (VDict [("name", VStr "Q3-Plan")]))].
Proof.
  rewrite (proj1 (rename_prediction_wire (demo []) the_base_endpoint
                    (bearer (VStr "t0k3n")) "p1" "Q3-Plan"
                    (conj eq_refl eq_refl))).
  reflexivity.
Defined.

(** X15. User management on the wire: [add_user] POSTs to [users] the
    e-mail and the role, the role under the key ['permission'];
    [delete_user] sends a DELETE to [user] that names the user in a JSON
    body, not in the URL. *)
Theorem user_management_wire (st : state) (b : string)
    (h : list (string * string)) (email role : string) :
  ready b h (self st) ->
  log (snd (add_user email role st))
  = (log st ++ [mkRequest POST (b ++ "users") (Some h) None None
                  (Some (VDict [("email", VStr email);
                                ("permission", VStr role)]))])%list /\
  log (snd (delete_user email st))
  = (log st ++ [mkRequest DELETE (b ++ "user") (Some h) None None
                  (Some (VDict [("email", VStr email)]))])%list.
Proof.
  intros Hst. split.
  - change (add_user email role) with (invoke (AddUser email role)).
    erewrite invoke_single; [ | exact Hst | reflexivity ]. reflexivity.
  - change (delete_user email) with (invoke (DeleteUser email)).
    erewrite invoke_single; [ | exact Hst | reflexivity ]. reflexivity.
Qed.

Lemma user_management_wire_witness :
  map (fun r => (method r, json r)) (log (snd (delete_user "a@b.c" (demo []))))
  = [(DELETE, Some (VDict [("email", VStr "a@b.c")]))].
Proof.
  rewrite (proj2 (user_management_wire (demo []) the_base_endpoint
                    (bearer (VStr "t0k3n")) "a@b.c" "viewer"
                    (conj eq_refl eq_refl))).
  reflexivity.
Defined.

(** X16. How construction ends when a fetch fails after a successful
    authentication: the error is the one of the fetch that failed ("Failed to
    fetch sites", "Failed to fetch predicitions", "Failed to get users"), and
    the fetches after it are not sent. *)
Theorem construction_fetch_failure (cid sec : string) (server : Server)
    (tok : pyval) (k : req_exn) (msg : string) :
  let r0 := auth_request cid sec in
  let h := bearer tok in
  let r1 := get_request the_base_endpoint "sites" h in
  let r2 := get_request the_base_endpoint "predictions" h in
  let r3 := get_request the_base_endpoint "users" h in
  let made := construct cid sec server in
  token_of (server [r0]) = Ok tok ->
  (reply (server [r0; r1]) = Raise (RequestException k msg) ->
   fst made = Raise (RuntimeError ("Failed to fetch sites: " ++ msg)) /\
   log (snd made) = [r0; r1]) /\
  (forall s, objects_of (server [r0; r1]) = Ok s ->
     reply (server [r0; r1; r2]) = Raise (RequestException k msg) ->
     fst made = Raise (RuntimeError ("Failed to fetch predicitions: " ++ msg)) /\
     log (snd made) = [r0; r1; r2]) /\
  (forall s p, objects_of (server [r0; r1]) = Ok s ->
     objects_of (server [r0; r1; r2]) = Ok p ->
     reply (server [r0; r1; r2; r3]) = Raise (RequestException k msg) ->
     fst made = Raise (RuntimeError ("Failed to get users: " ++ msg)) /\
     log (snd made) = [r0; r1; r2; r3]).
Proof.
  intros r0 h r1 r2 r3 made Htok. subst made.
  rewrite construct_run. fold r0. rewrite Htok. cbn zeta. fold h r1 r2 r3.
  split; [ | split ].
  - intros E. rewrite (reply_objects_raise _ _ E). split; reflexivity.
  - intros s Hs E. rewrite Hs, (reply_objects_raise _ _ E). split; reflexivity.
  - intros s p Hs Hp E. rewrite Hs, Hp, (reply_objects_raise _ _ E).
    split; reflexivity.
Qed.

Lemma construction_fetch_failure_witness :
  fst (construct "id" "secret" (scripted [token_reply; objects [denver]]))
  = Raise (RuntimeError "Failed to fetch predicitions: Connection refused").
Proof.
  refine (proj1 (proj1 (proj2
    (construction_fetch_failure "id" "secret"
       (scripted [token_reply; objects [denver]]) (VStr "t0k3n") ConnectionError
       "Connection refused" _)) (VList [denver]) _ _)).
  - vm_compute; reflexivity.
  - vm_compute; reflexivity.
  - vm_compute; reflexivity.
Defined.

(** X17. The snapshots are not validated: when the three fetches are
    answered by objects, construction returns and each snapshot is whatever
    sits under ['objects'] in its answer, a list or not, and the empty list
    when the key is missing. *)
Theorem snapshots_are_not_validated (cid sec : string) (server : Server)
    (tok : pyval) (d1 d2 d3 : list (string * pyval)) :
  let r0 := auth_request cid sec in
  let h := bearer tok in
  let r1 := get_request the_base_endpoint "sites" h in
  let r2 := get_request the_base_endpoint "predictions" h in
  let r3 := get_request the_base_endpoint "users" h in
  token_of (server [r0]) = Ok tok ->
  answers_object (server [r0; r1]) d1 ->
  answers_object (server [r0; r1; r2]) d2 ->
  answers_object (server [r0; r1; r2; r3]) d3 ->
  exists st, construct cid sec server = (Ok tt, st) /\
             sites (self st) = Some (objects_or_empty d1) /\
             predictions (self st) = Some (objects_or_empty d2) /\
             users (self st) = Some (objects_or_empty d3).
Proof.
  intros r0 h r1 r2 r3 Htok H1 H2 H3.
  rewrite construct_run. fold r0. rewrite Htok. cbn zeta. fold h r1 r2 r3.
  unfold objects_of.
  rewrite (answers_object_reply _ _ H1), (answers_object_reply _ _ H2),
    (answers_object_reply _ _ H3).
  cbn [rbind dict_get]. unfold objects_or_empty.
  destruct (assoc "objects" d1); destruct (assoc "objects" d2);
    destruct (assoc "objects" d3); eexists; (split; [reflexivity|]);
    repeat split.
Qed.

Lemma snapshots_are_not_validated_witness :
  exists st,
    construct "id" "secret"
      (scripted [token_reply; ok_json (VDict []);
                 ok_json (VDict [("objects", VStr "none yet")]); objects []])
    = (Ok tt, st) /\
    sites (self st) = Some (VList []) /\
    predictions (self st) = Some (VStr "none yet").
Proof.
  destruct (snapshots_are_not_validated "id" "secret"
              (scripted [token_reply; ok_json (VDict []);
                         ok_json (VDict [("objects", VStr "none yet")]);
                         objects []])
              (VStr "t0k3n") [] [("objects", VStr "none yet")]
              [("objects", VList [])])
    as (st & E & S & P & _).
  - vm_compute; reflexivity.
  - eexists; repeat split; vm_compute; reflexivity.
  - eexists; repeat split; vm_compute; reflexivity.
  - eexists; repeat split; vm_compute; reflexivity.
  - exists st. repeat split; assumption.
Defined.



(** X19. Site management on the wire: [create_site] POSTs to [sites] the
    name, the coordinates and the credit id, the credit id under the key
    ['credits']; [rename_site] PATCHes [site/{site_id}] with the new name
    alone. *)
Theorem site_management_wire (st : state) (b : string)
    (h : list (string * string)) (site_id name credit_id : string)
    (lat lon : pynum) :
  ready b h (self st) ->
  log (snd (create_site name lat lon credit_id st))
  = (log st ++ [mkRequest POST (b ++ "sites") (Some h) None None
                  (Some (VDict [("name", VStr name); ("lat", num lat);
                                ("lon", num lon);
                                ("credits", VStr credit_id)]))])%list /\
  log (snd (rename_site site_id name st))
  = (log st ++ [mkRequest PATCH (b ++ "site/" ++ site_id) (Some h) None None
                  (Some (VDict [("name", VStr name)]))])%list.
Proof.
  intros Hst. split.
  - change (create_site name lat lon credit_id)
      with (invoke (CreateSite name lat lon credit_id)).
    erewrite invoke_single; [ | exact Hst | reflexivity ]. reflexivity.
  - change (rename_site site_id name) with (invoke (RenameSite site_id name)).
    erewrite invoke_single; [ | exact Hst | reflexivity ]. reflexivity.
Qed.

Lemma site_management_wire_witness :
  map (fun r => (method r, json r))
    (log (snd (rename_site "s1" "Denver East" (demo []))))
  = [(PATCH, Some (VDict [("name", VStr "Denver East")]))].
Proof.
  rewrite (proj2 (site_management_wire (demo []) the_base_endpoint
                    (bearer (VStr "t0k3n")) "s1" "Denver East" "c1"
                    (NFloat "39.7") (NFloat "-104.9") (conj eq_refl eq_refl))).
  reflexivity.
Defined.

(** X20. Subscriptions on the wire: [renew_subscriptions] and
    [terminate_subscription] each send one PATCH without a body, the first
    to [subscription/{site_id}/renew], the second to
    [subscription/{site_id}/terminate]. *)
Theorem subscription_wire (st : state) (b : string) (h : list (string * string))
    (site_id : string) :
  ready b h (self st) ->
  log (snd (renew_subscriptions site_id st))
  = (log st ++ [mkRequest PATCH (b ++ "subscription/" ++ site_id ++ "/renew")
                  (Some h) None None None])%list /\
  log (snd (terminate_subscription site_id st))
  = (log st ++ [mkRequest PATCH
                  (b ++ "subscription/" ++ site_id ++ "/terminate")
                  (Some h) None None None])%list.
Proof.
  intros Hst. split.
  - change (renew_subscriptions site_id)
      with (invoke (RenewSubscriptions site_id)).
    erewrite invoke_single; [ | exact Hst | reflexivity ]. reflexivity.
  - change (terminate_subscription site_id)
      with (invoke (TerminateSubscription site_id)).
    erewrite invoke_single; [ | exact Hst | reflexivity ]. reflexivity.
Qed.

Lemma subscription_wire_witness :
  map url (log (snd (terminate_subscription "s1" (demo []))))
  = [the_base_endpoint ++ "subscription/s1/terminate"].
Proof.
  rewrite (proj2 (subscription_wire (demo []) the_base_endpoint
                    (bearer (VStr "t0k3n")) "s1" (conj eq_refl eq_refl))).
  reflexivity.
Defined.

(** X21. The token is never refreshed: over any sequence of calls, whatever
    their outcomes (a 401 included), the client object, with its credentials,
    token and headers, stays as it was. *)
Theorem client_object_is_never_rewritten (calls : list call) (st : state) :
  self (run calls st) = self st.
Proof.
  now destruct (run_sends anything anything calls invoke_framed st I) as (Hs & _).
Qed.
